(** * A shallow embedding of [bot.py], the DOGEUSDT scalping bot.

    Python's [float] and numpy's [float64] are IEEE-754 binary64 numbers, and
    so are Rocq's primitive floats: every arithmetic operation and comparison
    of the source is the primitive operation of the same name.  Exceptions
    are an error monad; the calls the bot makes to its collaborators (the
    Binance client and the trade log) are recorded in the order they happen. *)

From Stdlib Require Import ZArith QArith Floats List String Bool Lia.
Import ListNotations.

Set Warnings "-inexact-float".

(* ================================================================== *)
(** ** Python numbers *)

Module PyFloat.

Local Open Scope Z_scope.

(** The exceptions the bot can meet. [RequestException] stands for a
    transport failure of the HTTP client, which is neither of Binance's
    two exception classes. *)
Inductive exn : Type :=
| KeyError | TypeError | ValueError | OverflowError | IndexError
| BinanceAPIException | BinanceOrderException | RequestException.

(** The integer a finite float [(-1)^s * m * 2^e] stands over: shifting
    right divides rounding towards minus infinity. *)
Definition floor_finite (s : bool) (m : positive) (e : Z) : Z :=
  Z.shiftl (cond_Zopp s (Zpos m)) e.

(** [math.floor(x)] of a float: an [int]; [OverflowError] on an infinity
    and [ValueError] on a NaN. *)
Definition math_floor (x : float) : exn + Z :=
  match Prim2SF x with
  | S754_nan => inl ValueError
  | S754_infinity _ => inl OverflowError
  | S754_zero _ => inr 0
  | S754_finite s m e => inr (floor_finite s m e)
  end.

(** [float(n)] of an [int], as the mixed product [n * x] converts it:
    the nearest float, ties to even; [OverflowError] beyond the range. *)
Definition int_to_float (n : Z) : exn + float :=
  match binary_normalize prec emax n 0 false with
  | S754_infinity _ => inl OverflowError
  | r => inr (SF2Prim r)
  end.

(** The integer nearest to [a / b] for [0 < b], ties to the even one. *)
Definition div_half_even (a b : Z) : Z :=
  let q := a / b in
  match 2 * (a mod b) ?= b with
  | Lt => q
  | Gt => q + 1
  | Eq => if Z.even q then q else q + 1
  end.

(** [x * 10^ndigits] rounded to an integer, ties to even, from the exact
    value of the finite float [(-1)^s * m * 2^e]. *)
Definition scaled_half_even (s : bool) (m : positive) (e : Z) (ndigits : Z) : Z :=
  let a := cond_Zopp s (Zpos m) * 10 ^ ndigits in
  if 0 <=? e then a * 2 ^ e else div_half_even a (2 ^ (- e)).

(** The float nearest to the decimal [n / 10^ndigits] (ties to even). *)
Definition decimal_to_float (sign : bool) (n : Z) (ndigits : Z) : float :=
  match n with
  | Z0 => SF2Prim (S754_zero sign)
  | Zpos p => SF2Prim (SF64div (S754_finite false p 0)
                               (S754_finite false (Z.to_pos (10 ^ ndigits)) 0))
  | Zneg p => SF2Prim (SF64div (S754_finite true p 0)
                               (S754_finite false (Z.to_pos (10 ^ ndigits)) 0))
  end.

(** [round(x, ndigits)] for a float and [0 <= ndigits]: the exact value of
    [x] is rounded to [ndigits] decimals, ties to even, and the decimal
    read back as the nearest float.  Infinities and NaN round to
    themselves. *)
Definition round (x : float) (ndigits : Z) : float :=
  match Prim2SF x with
  | S754_finite s m e =>
      decimal_to_float s (scaled_half_even s m e ndigits) ndigits
  | _ => x
  end.

(** The exact rational value of a finite float (0 on the others). *)
Definition to_Q (x : float) : Q :=
  match Prim2SF x with
  | S754_finite s m e =>
      if 0 <=? e then inject_Z (cond_Zopp s (Zpos m) * 2 ^ e)
      else Qmake (cond_Zopp s (Zpos m)) (Z.to_pos (2 ^ (- e)))
  | _ => 0%Q
  end.

End PyFloat.

Import PyFloat.

(* ================================================================== *)
(** ** Effects: exceptions, run_bot's local variables, collaborator calls *)

Module Effects.

(** Fallible pure code. *)
Definition E (A : Type) : Type := (exn + A)%type.

Definition Ebind {A B : Type} (e : E A) (k : A -> E B) : E B :=
  match e with
  | inl x => inl x
  | inr a => k a
  end.

(** A computation over local variables [S] that may raise, and that
    reports the calls [C] it made to collaborators, oldest first.  What
    was assigned and called before an exception stays assigned and
    called. *)
Definition M (S C A : Type) : Type := S -> (exn + A) * S * list C.

Section Ops.
Context {S C : Type}.

Definition ret {A : Type} (a : A) : M S C A :=
  fun s => (inr a, s, []).

Definition raise {A : Type} (e : exn) : M S C A :=
  fun s => (inl e, s, []).

Definition bind {A B : Type} (m : M S C A) (k : A -> M S C B) : M S C B :=
  fun s =>
    match m s with
    | (inl e, s1, c1) => (inl e, s1, c1)
    | (inr a, s1, c1) =>
        let '(r, s2, c2) := k a s1 in (r, s2, c1 ++ c2)
    end.

(** [try: m  except Exception as e: h e] *)
Definition try_except {A : Type} (m : M S C A) (h : exn -> M S C A) : M S C A :=
  fun s =>
    match m s with
    | (inl e, s1, c1) =>
        let '(r, s2, c2) := h e s1 in (r, s2, c1 ++ c2)
    | ok => ok
    end.

Definition lift {A : Type} (e : E A) : M S C A :=
  fun s => (e, s, []).

Definition call (c : C) : M S C unit :=
  fun s => (inr tt, s, [c]).

Definition get : M S C S :=
  fun s => (inr s, s, []).

Definition put (s : S) : M S C unit :=
  fun _ => (inr tt, s, []).
End Ops.

End Effects.

Import Effects.

Declare Scope py_scope.
Delimit Scope py_scope with py.
Notation "x <- m ;; k" := (bind m (fun x => k))
  (at level 61, m at next level, right associativity) : py_scope.
Notation "' pat <- m ;; k" := (bind m (fun x => match x with pat => k end))
  (at level 61, pat pattern, m at next level, right associativity) : py_scope.
Notation "m ;; k" := (bind m (fun _ => k))
  (at level 61, right associativity) : py_scope.
Notation "'let?' x := e 'in' k" := (Ebind e (fun x => k))
  (at level 10, x name, e at level 100, k at level 200) : py_scope.

(* ================================================================== *)
(** ** What the collaborators answer *)

Module Data.

Local Open Scope string_scope.

(** A value of a JSON object as Binance sends it: a numeric string (given
    by the float that [float(...)] reads from it) or any other string. *)
Inductive json : Type :=
| JNum (x : float)
| JStr (s : string).

(** A Python dict with string keys. *)
Definition dict : Type := list (string * json).

(** [d[key]] *)
Fixpoint getitem (d : dict) (key : string) : E json :=
  match d with
  | [] => inl KeyError
  | (k, v) :: d' => if String.eqb k key then inr v else getitem d' key
  end.

(** [float(v)] *)
Definition float_of (v : json) : E float :=
  match v with
  | JNum x => inr x
  | JStr _ => inl ValueError
  end.

(** [v == s] for a string literal [s] *)
Definition eq_str (v : json) (s : string) : bool :=
  match v with
  | JStr s' => String.eqb s' s
  | JNum _ => false
  end.

Inductive side : Type := SIDE_BUY | SIDE_SELL.

(** A row of the trade log ([None] is Python's [None]). *)
Record trade : Type := {
  Timestamp : string;
  Symbol : string;
  Side : side;
  Quantity : float;
  Entry_Price : float;
  Stop_Loss : float;
  Take_Profit : float;
  Exit_Price : option float;
  Result : option string
}.

(** The calls the bot makes, with their arguments. *)
Inductive request : Type :=
| get_klines
| get_account
| get_symbol_info
| get_symbol_ticker
| create_order (s : side) (quantity : float)
| log_trade_call (t : trade).

(** What the world answers during one iteration of the loop; the bot
    makes each call at most once per iteration.  [klines] holds the
    closing prices, already read as floats; [symbol_info] the filters of
    the symbol, [None] when the exchange does not know the symbol. *)
Record world : Type := {
  klines : E (list float);
  account : E (list dict);
  symbol_info : E (option (list dict));
  symbol_ticker : E dict;
  order : E dict;
  now : string
}.

End Data.

Import Data.

(* ================================================================== *)
(** ** The pandas operations the indicators use *)

Module Pandas.

Local Open Scope float_scope.

(** A float64 Series is the list of its values. *)
Definition series : Type := list float.

(** A small integer as a float. *)
Definition of_nat (n : nat) : float :=
  SF2Prim (binary_normalize prec emax (Z.of_nat n) 0 false).

(** [s.diff()]: NaN first, then each value minus the one before. *)
Fixpoint diff_from (prev : float) (s : series) : series :=
  match s with
  | [] => []
  | x :: s' => (x - prev) :: diff_from x s'
  end.

Definition diff (s : series) : series :=
  match s with
  | [] => []
  | x :: s' => nan :: diff_from x s'
  end.

(** [s.where(cond, other)]: the value where [cond] holds, [other]
    elsewhere (so also where the value is NaN and [cond] compares it). *)
Definition where_ (cond : float -> bool) (other : float) (s : series) : series :=
  map (fun x => if cond x then x else other) s.

(** What pandas keeps while a window slides over the values: the number
    of values in the window that are not NaN, their Kahan-compensated sum,
    how many of them have the sign bit set, the two compensations, and the
    length of the run of equal values that ends at the newest one. *)
Record mean_state : Type := {
  nobs : nat;
  sum_x : float;
  neg_ct : nat;
  compensation_add : float;
  compensation_remove : float;
  num_consecutive_same_value : nat;
  prev_value : float
}.

(** [signbit(x)]: true on negative numbers and on -0.0. *)
Definition signbit (x : float) : bool := get_sign x.

(** A value enters the window. *)
Definition add_mean (st : mean_state) (val : float) : mean_state :=
  if val =? val then
    let y := val - compensation_add st in
    let t := sum_x st + y in
    {| nobs := Datatypes.S (nobs st);
       sum_x := t;
       neg_ct := if signbit val then Datatypes.S (neg_ct st) else neg_ct st;
       compensation_add := t - sum_x st - y;
       compensation_remove := compensation_remove st;
       num_consecutive_same_value :=
         if val =? prev_value st
         then Datatypes.S (num_consecutive_same_value st) else 1%nat;
       prev_value := val |}
  else st.

(** A value leaves the window. *)
Definition remove_mean (st : mean_state) (val : float) : mean_state :=
  if val =? val then
    let y := - val - compensation_remove st in
    let t := sum_x st + y in
    {| nobs := Nat.pred (nobs st);
       sum_x := t;
       neg_ct := if signbit val then Nat.pred (neg_ct st) else neg_ct st;
       compensation_add := compensation_add st;
       compensation_remove := t - sum_x st - y;
       num_consecutive_same_value := num_consecutive_same_value st;
       prev_value := prev_value st |}
  else st.

(** The mean of the window: NaN with fewer than [minp] values; the value
    itself when the window holds one value repeated; 0 when rounding gave
    the mean the wrong sign. *)
Definition calc_mean (minp : nat) (st : mean_state) : float :=
  if (minp <=? nobs st)%nat && (0 <? nobs st)%nat then
    let result := sum_x st / of_nat (nobs st) in
    if (nobs st <=? num_consecutive_same_value st)%nat then prev_value st
    else if (neg_ct st =? 0)%nat && (result <? 0) then 0
    else if (neg_ct st =? nobs st)%nat && (0 <? result) then 0
    else result
  else nan.

(** The state once the window ends at index [i]: the first value enters
    an empty window; at each later index the value that falls out of the
    last [window] leaves, then the new one enters. *)
Fixpoint state_at (window : nat) (values : series) (i : nat) : mean_state :=
  match i with
  | O =>
      add_mean
        {| nobs := 0; sum_x := 0; neg_ct := 0;
           compensation_add := 0; compensation_remove := 0;
           num_consecutive_same_value := 0;
           prev_value := nth 0 values nan |}
        (nth 0 values nan)
  | Datatypes.S j =>
      let st := state_at window values j in
      let st := if (window <=? Datatypes.S j)%nat
                then remove_mean st (nth (Datatypes.S j - window) values nan)
                else st in
      add_mean st (nth (Datatypes.S j) values nan)
  end.

(** [s.rolling(window, min_periods).mean()] for [1 <= window], as pandas
    1.5 computes it: infinities count as NaN, and the mean at each index is
    read from the running state. *)
Definition rolling_mean (window min_periods : nat) (s : series) : series :=
  let values := map (fun x => if is_infinity x then nan else x) s in
  map (fun i => calc_mean min_periods (state_at window values i))
      (seq 0 (List.length s)).

(** Element-wise operations with a scalar and between two Series. *)
Definition neg (s : series) : series := map opp s.
Definition div (a b : series) : series :=
  map (fun p => fst p / snd p) (combine a b).
Definition radd (k : float) (s : series) : series := map (fun x => k + x) s.
Definition rdiv (k : float) (s : series) : series := map (fun x => k / x) s.
Definition rsub (k : float) (s : series) : series := map (fun x => k - x) s.

(** One step of [s.ewm(span, adjust=False).mean()] as pandas computes it
    (ignore_na=False): the running average and the weight of the past.
    Without NaN it is [((1 - alpha) * y + alpha * x) / ((1 - alpha) + alpha)],
    left alone when the new value equals the average. *)
Definition ewm_step (alpha : float) (st : float * float) (cur : float)
  : float * float :=
  let '(weighted, old_wt) := st in
  if weighted =? weighted then
    let old_wt := old_wt * (1 - alpha) in
    if cur =? cur then
      ((if negb (weighted =? cur)
        then (old_wt * weighted + alpha * cur) / (old_wt + alpha)
        else weighted), 1)
    else (weighted, old_wt)
  else if cur =? cur then (cur, old_wt)
  else (weighted, old_wt).

Fixpoint ewm_from (alpha : float) (st : float * float) (s : series) : series :=
  match s with
  | [] => []
  | cur :: s' =>
      let st' := ewm_step alpha st cur in
      fst st' :: ewm_from alpha st' s'
  end.

(** The running average starts at the first value; the smoothing factor
    is [1 / (1 + com)] with [com = (span - 1) / 2]. *)
Definition ewm_mean (span : nat) (s : series) : series :=
  let alpha := 1 / (1 + (of_nat span - 1) / 2) in
  match s with
  | [] => []
  | x :: s' => x :: ewm_from alpha (x, 1) s'
  end.

End Pandas.

(* ================================================================== *)
(** ** The bot *)

Module Bot.

Local Open Scope string_scope.
Local Open Scope float_scope.
Local Open Scope py_scope.

(** *** Configuration *)

Definition SYMBOL : string := "DOGEUSDT".
Definition EMA_FAST : nat := 9.
Definition EMA_SLOW : nat := 21.
Definition RSI_PERIOD : nat := 14.
Definition STOP_LOSS_PERCENT : float := 0.01.
Definition TAKE_PROFIT_PERCENT : float := 0.02.
Definition RESERVED_USDT : float := 20.0.

(** *** Auxiliary functions *)

(** The loop of [get_balance] over [account_info['balances']]. *)
Fixpoint find_balance (balances : list dict) (asset : string) : E float :=
  match balances with
  | [] => inr 0.0
  | balance :: rest =>
      let? a := getitem balance "asset" in
      if eq_str a asset then
        let? free := getitem balance "free" in
        let? free_balance := float_of free in
        let? locked := getitem balance "locked" in
        let? locked_balance := float_of locked in
        inr free_balance
      else find_balance rest asset
  end.

Definition get_balance {S : Type} (w : world) (asset : string)
  : M S request float :=
  try_except
    (call get_account ;;
     balances <- lift (account w) ;;
     lift (find_balance balances asset))
    (fun _ => ret 0.0).

Definition calculate_rsi (s : Pandas.series) (period : nat) : Pandas.series :=
  let delta := Pandas.diff s in
  let gain := Pandas.where_ (fun d => 0 <? d) 0 delta in
  let loss := Pandas.neg (Pandas.where_ (fun d => d <? 0) 0 delta) in
  let avg_gain := Pandas.rolling_mean period period gain in
  let avg_loss := Pandas.rolling_mean period period loss in
  let rs := Pandas.div avg_gain avg_loss in
  Pandas.rsub 100 (Pandas.rdiv 100 (Pandas.radd 1 rs)).

(** A row of the DataFrame of [get_indicators], with the columns the bot
    reads. *)
Record row : Type := {
  close : float;
  ema_fast : float;
  ema_slow : float;
  rsi : float
}.

Definition dataframe : Type := list row.

Fixpoint zip_columns (c f s r : Pandas.series) : dataframe :=
  match c, f, s, r with
  | c0 :: c', f0 :: f', s0 :: s', r0 :: r' =>
      {| close := c0; ema_fast := f0; ema_slow := s0; rsi := r0 |}
        :: zip_columns c' f' s' r'
  | _, _, _, _ => []
  end.

(** The try block only logs and raises again. *)
Definition get_indicators {S : Type} (w : world) : M S request dataframe :=
  call get_klines ;;
  closes <- lift (klines w) ;;
  ret (zip_columns closes
         (Pandas.ewm_mean EMA_FAST closes)
         (Pandas.ewm_mean EMA_SLOW closes)
         (calculate_rsi closes RSI_PERIOD)).

(** [df.iloc[-1]] *)
Fixpoint iloc_last (df : dataframe) : E row :=
  match df with
  | [] => inl IndexError
  | [r] => inr r
  | _ :: df' => iloc_last df'
  end.

Definition adjust_quantity (quantity step_size : float) : E float :=
  let? n := math_floor (quantity / step_size) in
  let? f := int_to_float n in
  inr (f * step_size).

(** The loop of [calculate_quantity] over the filters; the three
    variables start at [None]. *)
Fixpoint scan_filters (filters : list dict)
    (acc : option float * option float * option float)
  : E (option float * option float * option float) :=
  match filters with
  | [] => inr acc
  | f :: rest =>
      let '(min_qty, step_size, min_notional) := acc in
      let? t := getitem f "filterType" in
      let? acc1 :=
        (if eq_str t "LOT_SIZE" then
           let? a := getitem f "minQty" in
           let? min_qty := float_of a in
           let? b := getitem f "stepSize" in
           let? step_size := float_of b in
           inr (Some min_qty, Some step_size, min_notional)
         else inr (min_qty, step_size, min_notional)) in
      let '(min_qty, step_size, min_notional) := acc1 in
      let? t := getitem f "filterType" in
      let? acc2 :=
        (if eq_str t "NOTIONAL" then
           let? c := getitem f "minNotional" in
           let? min_notional := float_of c in
           inr (min_qty, step_size, Some min_notional)
         else inr (min_qty, step_size, min_notional)) in
      scan_filters rest acc2
  end.

(** [x < y] where [y] may be [None]: ordering a number against [None]
    raises [TypeError]. *)
Definition lt_opt (x : float) (y : option float) : E bool :=
  match y with
  | Some y => inr (x <? y)
  | None => inl TypeError
  end.

(** [info['filters']]; subscripting [None] raises [TypeError]. *)
Definition filters_of (info : option (list dict)) : E (list dict) :=
  match info with
  | Some filters => inr filters
  | None => inl TypeError
  end.

(** The try block of [calculate_quantity].  [price] is the numpy float64
    of the last row, so the divisions by it and of the quotient follow
    IEEE-754: dividing by zero gives an infinity or NaN, on which
    [math.floor] raises. *)
Definition calculate_quantity_try {S : Type} (w : world) (price : float)
  : M S request float :=
  usdt_balance <- get_balance w "USDT" ;;
  if usdt_balance <=? RESERVED_USDT then ret 0.0
  else
    let adjusted_balance := usdt_balance - RESERVED_USDT in
    call get_symbol_info ;;
    info <- lift (symbol_info w) ;;
    filters <- lift (filters_of info) ;;
    '(min_qty, step_size, min_notional) <-
       lift (scan_filters filters (None, None, None)) ;;
    match step_size with
    | None => ret 0.0
    | Some step_size =>
        let max_qty := adjusted_balance / price in
        quantity <- lift (adjust_quantity max_qty step_size) ;;
        let trade_value := quantity * price in
        below_qty <- lift (lt_opt quantity min_qty) ;;
        if below_qty then ret 0.0
        else
          below_notional <- lift (lt_opt trade_value min_notional) ;;
          if below_notional then ret 0.0
          else ret (round quantity 6)
    end.

Definition calculate_quantity {S : Type} (w : world) (price : float)
  : M S request float :=
  try_except (calculate_quantity_try w price) (fun _ => ret 0.0).

(** [None] is the order that failed with one of Binance's two exception
    classes; any other exception goes on to the caller. *)
Definition execute_market_order {S : Type} (w : world) (s : side)
    (quantity : float) : M S request (option dict) :=
  try_except
    (call (create_order s quantity) ;;
     o <- lift (order w) ;;
     ret (Some o))
    (fun e =>
       match e with
       | BinanceAPIException => ret None
       | BinanceOrderException => ret None
       | _ => raise e
       end).

(** Writing the file can fail, which is logged and nothing more: the
    call is what the bot emits. *)
Definition log_trade {S : Type} (t : trade) : M S request unit :=
  call (log_trade_call t).

(** *** Trading functions *)

Definition monitor_trade {S : Type} (w : world) (entry_price quantity : float)
  : M S request (option dict * string * option float) :=
  try_except
    (call get_symbol_ticker ;;
     ticker <- lift (symbol_ticker w) ;;
     p <- lift (getitem ticker "price") ;;
     current_price <- lift (float_of p) ;;
     let stop_loss_price := entry_price * (1 - STOP_LOSS_PERCENT) in
     let take_profit_price := entry_price * (1 + TAKE_PROFIT_PERCENT) in
     if current_price <=? stop_loss_price then
       order <- execute_market_order w SIDE_SELL quantity ;;
       ret (order, "Stop Loss", Some current_price)
     else if take_profit_price <=? current_price then
       order <- execute_market_order w SIDE_SELL quantity ;;
       ret (order, "Take Profit", Some current_price)
     else ret (None, "Abierta", Some current_price))
    (fun _ => ret (None, "Error", None)).

(** The local variables of [run_bot] that live across iterations. *)
Record locals : Type := {
  position_open : bool;
  entry_price : float;
  quantity : float
}.

Definition initial : locals :=
  {| position_open := false; entry_price := 0.0; quantity := 0.0 |}.

Definition set_position_open (b : bool) : M locals request unit :=
  s <- get ;;
  put {| position_open := b; entry_price := entry_price s;
         quantity := quantity s |}.

Definition set_entry_price (x : float) : M locals request unit :=
  s <- get ;;
  put {| position_open := position_open s; entry_price := x;
         quantity := quantity s |}.

Definition set_quantity (x : float) : M locals request unit :=
  s <- get ;;
  put {| position_open := position_open s; entry_price := entry_price s;
         quantity := x |}.

(** [result in ["Stop Loss", "Take Profit"]] *)
Definition is_exit (result : string) : bool :=
  String.eqb result "Stop Loss" || String.eqb result "Take Profit".

(** The entry branch of the loop body, on the last row. *)
Definition search_entry (w : world) (last_row : row) : M locals request unit :=
  if (ema_slow last_row <? ema_fast last_row)
     && ((30 <? rsi last_row) && (rsi last_row <? 70))
  then
    q <- calculate_quantity w (close last_row) ;;
    set_quantity q ;;
    if 0 <? q then
      order <- execute_market_order w SIDE_BUY q ;;
      match order with
      | Some _ =>
          set_entry_price (close last_row) ;;
          set_position_open true ;;
          s <- get ;;
          log_trade
            {| Timestamp := now w;
               Symbol := SYMBOL;
               Side := SIDE_BUY;
               Quantity := quantity s;
               Entry_Price := entry_price s;
               Stop_Loss := entry_price s * (1 - STOP_LOSS_PERCENT);
               Take_Profit := entry_price s * (1 + TAKE_PROFIT_PERCENT);
               Exit_Price := None;
               Result := None |}
      | None => ret tt
      end
    else ret tt
  else ret tt.

(** The monitoring branch of the loop body. *)
Definition monitor_position (w : world) : M locals request unit :=
  s <- get ;;
  '(order, result, exit_price) <-
     monitor_trade w (entry_price s) (quantity s) ;;
  if is_exit result then
    match order with
    | Some _ =>
        log_trade
          {| Timestamp := now w;
             Symbol := SYMBOL;
             Side := SIDE_SELL;
             Quantity := quantity s;
             Entry_Price := entry_price s;
             Stop_Loss := entry_price s * (1 - STOP_LOSS_PERCENT);
             Take_Profit := entry_price s * (1 + TAKE_PROFIT_PERCENT);
             Exit_Price := exit_price;
             Result := Some result |}
    | None => ret tt
    end ;;
    set_position_open false ;;
    set_entry_price 0.0 ;;
    set_quantity 0.0
  else ret tt.

(** One iteration of [while True]: the try block and its handler. *)
Definition iteration (w : world) : M locals request unit :=
  try_except
    (df <- get_indicators w ;;
     last_row <- lift (iloc_last df) ;;
     s <- get ;;
     if negb (position_open s) then search_entry w last_row
     else monitor_position w)
    (fun _ => ret tt).

(** [run_bot] over the answers of the first iterations: the local
    variables and every call made, oldest first. *)
Fixpoint run_from (s : locals) (ws : list world) : locals * list request :=
  match ws with
  | [] => (s, [])
  | w :: ws' =>
      let '(_, s1, c1) := iteration w s in
      let '(s2, c2) := run_from s1 ws' in
      (s2, (c1 ++ c2)%list)
  end.

Definition run_bot (ws : list world) : locals * list request :=
  run_from initial ws.

(** The trade records among the calls. *)
Fixpoint trades_of (cs : list request) : list trade :=
  match cs with
  | [] => []
  | log_trade_call t :: cs' => t :: trades_of cs'
  | _ :: cs' => trades_of cs'
  end.

(** The orders among the calls. *)
Fixpoint orders_of (cs : list request) : list (side * float) :=
  match cs with
  | [] => []
  | create_order sd q :: cs' => (sd, q) :: orders_of cs'
  | _ :: cs' => orders_of cs'
  end.

Definition is_buy (t : trade) : bool :=
  match Side t with SIDE_BUY => true | SIDE_SELL => false end.

Definition is_sell (t : trade) : bool := negb (is_buy t).

Definition count_buys (ts : list trade) : nat := List.length (filter is_buy ts).
Definition count_sells (ts : list trade) : nat := List.length (filter is_sell ts).

End Bot.

Import Bot.

(* ================================================================== *)
(** ** Readings of the bot's behaviour, used to state its properties *)

Module Readings.

Local Open Scope string_scope.
Local Open Scope float_scope.
Local Open Scope py_scope.

(** The last row of the DataFrame that [get_indicators] builds from the
    klines of [w]. *)
Definition snapshot (w : world) : E row :=
  let? closes := klines w in
  iloc_last (zip_columns closes
               (Pandas.ewm_mean EMA_FAST closes)
               (Pandas.ewm_mean EMA_SLOW closes)
               (calculate_rsi closes RSI_PERIOD)).

(** The free balance [get_balance] answers, 0.0 after any failure. *)
Definition balance_of (w : world) (asset : string) : float :=
  match account w with
  | inl _ => 0.0
  | inr balances =>
      match find_balance balances asset with
      | inl _ => 0.0
      | inr x => x
      end
  end.

(** The quantity [calculate_quantity] returns and the calls it makes; it
    has no variables of its own to change. *)
Definition sized (w : world) (price : float) : float * list request :=
  let '(r, _, cs) := @calculate_quantity unit w price tt in
  (match r with inr v => v | inl _ => 0 end, cs).

(** What [execute_market_order] answers: the order, [None] for Binance's
    two exceptions, any other exception raised again. *)
Definition order_result (w : world) : E (option dict) :=
  match order w with
  | inr o => inr (Some o)
  | inl BinanceAPIException => inr None
  | inl BinanceOrderException => inr None
  | inl e => inl e
  end.

(** The price [monitor_trade] reads from the ticker. *)
Definition ticker_price (w : world) : E float :=
  let? ticker := symbol_ticker w in
  let? p := getitem ticker "price" in
  float_of p.

(** The entry condition of [run_bot] on a row. *)
Definition entry_signal (r : row) : bool :=
  (ema_slow r <? ema_fast r) && ((30 <? rsi r) && (rsi r <? 70)).

Definition stop_loss_of (entry : float) : float :=
  entry * (1 - STOP_LOSS_PERCENT).
Definition take_profit_of (entry : float) : float :=
  entry * (1 + TAKE_PROFIT_PERCENT).

(** The record of an entry at [price] with quantity [q]. *)
Definition buy_record (w : world) (price q : float) : trade :=
  {| Timestamp := now w; Symbol := SYMBOL; Side := SIDE_BUY; Quantity := q;
     Entry_Price := price;
     Stop_Loss := price * (1 - STOP_LOSS_PERCENT);
     Take_Profit := price * (1 + TAKE_PROFIT_PERCENT);
     Exit_Price := None; Result := None |}.

(** The record of the exit of the position [s] at price [p]. *)
Definition sell_record (w : world) (s : locals) (p : float) (result : string)
  : trade :=
  {| Timestamp := now w; Symbol := SYMBOL; Side := SIDE_SELL;
     Quantity := quantity s;
     Entry_Price := entry_price s;
     Stop_Loss := entry_price s * (1 - STOP_LOSS_PERCENT);
     Take_Profit := entry_price s * (1 + TAKE_PROFIT_PERCENT);
     Exit_Price := Some p; Result := Some result |}.

Definition with_quantity (s : locals) (q : float) : locals :=
  {| position_open := position_open s; entry_price := entry_price s;
     quantity := q |}.

(** What the monitoring branch does once an exit condition holds and the
    executor has answered [o], an order or [None]. *)
Definition exit_outcome (w : world) (s : locals) (p : float)
    (result : string) (o : option dict)
  : (exn + unit) * locals * list request :=
  match o with
  | Some _ =>
      (inr tt, initial,
       [get_symbol_ticker; create_order SIDE_SELL (quantity s);
        log_trade_call (sell_record w s p result)])
  | None =>
      (inr tt, initial,
       [get_symbol_ticker; create_order SIDE_SELL (quantity s)])
  end.

(** The intermediate Series of [calculate_rsi] and its last step on one
    pair of means. *)
Definition gain_of (s : Pandas.series) : Pandas.series :=
  Pandas.where_ (fun d => 0 <? d) 0 (Pandas.diff s).
Definition loss_of (s : Pandas.series) : Pandas.series :=
  Pandas.neg (Pandas.where_ (fun d => d <? 0) 0 (Pandas.diff s)).
Definition avg_gain_of (s : Pandas.series) (period : nat) : Pandas.series :=
  Pandas.rolling_mean period period (gain_of s).
Definition avg_loss_of (s : Pandas.series) (period : nat) : Pandas.series :=
  Pandas.rolling_mean period period (loss_of s).
Definition rsi_value (avg_gain avg_loss : float) : float :=
  100 - 100 / (1 + avg_gain / avg_loss).

(** A filter list without a filter of type [t]. *)
Definition lacks (t : string) (filters : list dict) : Prop :=
  forall f v, In f filters -> getitem f "filterType" = inr v -> eq_str v t = false.

(** The locals and the calls after an iteration. *)
Definition locals_after (w : world) (s : locals) : locals :=
  snd (fst (iteration w s)).
Definition calls_of (w : world) (s : locals) : list request :=
  snd (iteration w s).

End Readings.

Import Readings.

(* ================================================================== *)
(** ** Scenarios *)

Module Scenario.

Local Open Scope string_scope.
Local Open Scope float_scope.

(** Fourteen closes, six rises and six falls of 1: the fast average ends
    above the slow one and the RSI is 50. *)
Definition closes14 : list float := [4; 3; 2; 1; 2; 1; 2; 1; 2; 3; 4; 5; 4; 4].

Definition usdt (free : float) : list dict :=
  [[("asset", JStr "BTC"); ("free", JNum 0); ("locked", JNum 0)];
   [("asset", JStr "USDT"); ("free", JNum free); ("locked", JNum 0)]].

Definition lot_size (min_qty step : float) : dict :=
  [("filterType", JStr "LOT_SIZE"); ("minQty", JNum min_qty);
   ("maxQty", JNum 9000000); ("stepSize", JNum step)].

Definition notional (min_notional : float) : dict :=
  [("filterType", JStr "NOTIONAL"); ("minNotional", JNum min_notional)].

Definition price_filter : dict :=
  [("filterType", JStr "PRICE_FILTER"); ("tickSize", JNum 0.00001)].

Definition filled : dict := [("status", JStr "FILLED")].

(** A world where everything answers: balance, filters, ticker price and
    order. *)
Definition answering (free : float) (filters : list dict) (price : float)
    (o : E dict) : world :=
  {| klines := inr closes14;
     account := inr (usdt free);
     symbol_info := inr (Some filters);
     symbol_ticker := inr [("symbol", JStr "DOGEUSDT"); ("price", JNum price)];
     order := o;
     now := "2025-01-01 00:00:00" |}.

Definition doge_filters : list dict :=
  [price_filter; lot_size 1 1; notional 5].

(** The buy is filled: 120 USDT, close 4. *)
Definition w_buy : world := answering 120 doge_filters 4 (inr filled).

(** The price has fallen under the stop loss and the sell is refused. *)
Definition w_sell_refused : world :=
  answering 20 doge_filters 3.9 (inl BinanceAPIException).

(** The position [w_buy] opens. *)
Definition held : locals :=
  {| position_open := true; entry_price := 4; quantity := 25 |}.

(** A step of 0.1: three steps are 0.30000000000000004. *)
Definition w_step_tenth : world :=
  answering 21.4 [lot_size 0.1 0.1; notional 1] 4 (inr filled).

(** 255.2 USDT at a price of 0.32 with whole units. *)
Definition w_notional : world := answering 255.2 doge_filters 0.32 (inr filled).

(** No NOTIONAL filter; no LOT_SIZE filter. *)
Definition w_no_notional : world :=
  answering 120 [price_filter; lot_size 1 1] 4 (inr filled).
Definition w_no_lot_size : world :=
  answering 120 [price_filter; notional 5] 4 (inr filled).

(** 120 USDT at a price of 0.08. *)
Definition w_cheap : world := answering 120 doge_filters 0.08 (inr filled).

(** 15 USDT. *)
Definition w_poor : world := answering 15 doge_filters 4 (inr filled).

(** Fifteen rising closes: no loss in the window. *)
Definition rising15 : list float :=
  [1; 2; 3; 4; 5; 6; 7; 8; 9; 10; 11; 12; 13; 14; 15].
Definition w_rising : world :=
  {| klines := inr rising15;
     account := inr (usdt 120);
     symbol_info := inr (Some doge_filters);
     symbol_ticker := inr [("price", JNum 15)];
     order := inr filled;
     now := "2025-01-01 00:00:00" |}.

(** Thirteen closes. *)
Definition w_thirteen : world :=
  {| klines := inr (tl closes14);
     account := inr (usdt 120);
     symbol_info := inr (Some doge_filters);
     symbol_ticker := inr [("price", JNum 4)];
     order := inr filled;
     now := "2025-01-01 00:00:00" |}.

End Scenario.

Import Scenario.

(* ================================================================== *)
(** ** Shapes: what the answers, the variables and the records look like *)

Module Shapes.

Local Open Scope string_scope.
Local Open Scope float_scope.
Local Open Scope list_scope.

(** A balance entry that names another asset. *)
Definition other_asset (asset : string) (b : dict) : Prop :=
  exists a, getitem b "asset" = inr a /\ eq_str a asset = false.

(** A filter of a type the sizer does not read. *)
Definition unread (f : dict) : Prop :=
  exists t, getitem f "filterType" = inr t
            /\ eq_str t "LOT_SIZE" = false /\ eq_str t "NOTIONAL" = false.

(** A filter the loop of the sizer cannot read: no type, or a LOT_SIZE
    filter without a numeric minQty or stepSize, or a NOTIONAL filter
    without a numeric minNotional. *)
Definition number_at (f : dict) (key : string) : E float :=
  match getitem f key with
  | inl e => inl e
  | inr v => float_of v
  end.

Definition unreadable (f : dict) : Prop :=
  match getitem f "filterType" with
  | inl _ => True
  | inr t =>
      (eq_str t "LOT_SIZE" = true
       /\ ((exists e, number_at f "minQty" = inl e)
           \/ (exists e, number_at f "stepSize" = inl e)))
      \/ (eq_str t "NOTIONAL" = true
          /\ exists e, number_at f "minNotional" = inl e)
  end.

(** The variables of [run_bot] between two iterations: an open position
    has a positive quantity, and without one the entry price is 0.0. *)
Definition consistent (s : locals) : Prop :=
  (position_open s = true -> (0 <? quantity s) = true)
  /\ (position_open s = false -> entry_price s = 0).

(** A record of the trade log: the symbol, a positive quantity, the two
    exit prices taken from the entry price; a BUY has no exit price and no
    result, a SELL has the price that met the stop loss or the take profit
    and the result that says which. *)
Definition well_formed (t : trade) : Prop :=
  Symbol t = SYMBOL
  /\ (0 <? Quantity t) = true
  /\ Stop_Loss t = Entry_Price t * (1 - STOP_LOSS_PERCENT)
  /\ Take_Profit t = Entry_Price t * (1 + TAKE_PROFIT_PERCENT)
  /\ match Side t with
     | SIDE_BUY => Exit_Price t = None /\ Result t = None
     | SIDE_SELL =>
         exists p, Exit_Price t = Some p
           /\ ((Result t = Some "Stop Loss" /\ (p <=? Stop_Loss t) = true)
               \/ (Result t = Some "Take Profit"
                   /\ (p <=? Stop_Loss t) = false
                   /\ (Take_Profit t <=? p) = true))
     end.

(** The side of the one order an iteration may place from [s]. *)
Definition side_for (s : locals) : side :=
  if position_open s then SIDE_SELL else SIDE_BUY.

(** A world that differs from [w] in its klines only. *)
Definition with_klines (w : world) (k : E (list float)) : world :=
  {| klines := k; account := account w; symbol_info := symbol_info w;
     symbol_ticker := symbol_ticker w; order := order w; now := now w |}.

(** A world whose account request fails, and balances with the asset
    twice, and with an entry that has no locked amount. *)
Definition w_no_account : world :=
  {| klines := inr closes14; account := inl RequestException;
     symbol_info := inr (Some doge_filters);
     symbol_ticker := inr [("price", JNum 4)]; order := inr filled;
     now := "2025-01-01 00:00:00" |}.

Definition w_account (balances : list dict) : world :=
  {| klines := inr closes14; account := inr balances;
     symbol_info := inr (Some doge_filters);
     symbol_ticker := inr [("price", JNum 4)]; order := inr filled;
     now := "2025-01-01 00:00:00" |}.

Definition usdt_twice : list dict :=
  [[("asset", JStr "BTC"); ("free", JNum 1); ("locked", JNum 0)];
   [("asset", JStr "USDT"); ("free", JNum 120); ("locked", JNum 0)];
   [("asset", JStr "USDT"); ("free", JNum 7); ("locked", JNum 0)]].

Definition usdt_unlocked : list dict :=
  [[("asset", JStr "USDT"); ("free", JNum 120)]].

(** A world whose ticker request fails, and one whose order request fails
    in transport. *)
Definition w_no_ticker : world :=
  {| klines := inr closes14; account := inr (usdt 120);
     symbol_info := inr (Some doge_filters);
     symbol_ticker := inl RequestException; order := inr filled;
     now := "2025-01-01 00:00:00" |}.

Definition w_order_lost (price : float) : world :=
  answering 120 doge_filters price (inl RequestException).

End Shapes.

Import Shapes.

(* ================================================================== *)
(** ** Equations of the bot's functions *)

Local Open Scope string_scope.
Local Open Scope float_scope.
Local Open Scope py_scope.

Ltac run_monad :=
  unfold try_except, bind, call, lift, ret, raise, get, put.

Lemma get_balance_eq {S : Type} (w : world) (asset : string) (s : S) :
  get_balance w asset s = (inr (balance_of w asset), s, [get_account]).
Proof.
  unfold get_balance, balance_of. run_monad.
  destruct (account w) as [e | balances]; [reflexivity |].
  destruct (find_balance balances asset); reflexivity.
Qed.

Lemma calculate_quantity_eq {S : Type} (w : world) (price : float) (s : S) :
  calculate_quantity w price s
  = (inr (fst (sized w price)), s, snd (sized w price)).
Proof.
  unfold sized, calculate_quantity, calculate_quantity_try. run_monad.
  rewrite !get_balance_eq.
  destruct (balance_of w "USDT" <=? RESERVED_USDT); [reflexivity |].
  destruct (symbol_info w) as [e | info]; [reflexivity |].
  destruct (filters_of info) as [e | filters]; [reflexivity |].
  destruct (scan_filters filters (None, None, None)) as [e | [[mq st] mn]];
    [reflexivity |].
  destruct st as [st |]; [| reflexivity].
  destruct (adjust_quantity _ st) as [e | q]; [reflexivity |].
  destruct (lt_opt q mq) as [e | [|]]; try reflexivity.
  destruct (lt_opt _ mn) as [e | [|]]; reflexivity.
Qed.

(** The sizer rejects with 0.0, or every step of it went through and it
    returns the floored quantity rounded to six decimals. *)
Lemma sized_inv (w : world) (price : float) :
  fst (sized w price) = 0
  \/ exists filters min_qty step_size min_notional floored,
       (balance_of w "USDT" <=? RESERVED_USDT) = false
       /\ symbol_info w = inr (Some filters)
       /\ scan_filters filters (None, None, None)
          = inr (Some min_qty, Some step_size, Some min_notional)
       /\ adjust_quantity ((balance_of w "USDT" - RESERVED_USDT) / price) step_size
          = inr floored
       /\ (floored <? min_qty) = false
       /\ (floored * price <? min_notional) = false
       /\ fst (sized w price) = round floored 6.
Proof.
  unfold sized, calculate_quantity, calculate_quantity_try. run_monad.
  rewrite !get_balance_eq.
  destruct (balance_of w "USDT" <=? RESERVED_USDT) eqn:Hb; [left; reflexivity |].
  destruct (symbol_info w) as [e | [filters |]]; cbn [filters_of];
    [left; reflexivity | | left; reflexivity].
  destruct (scan_filters filters (None, None, None)) as [e | [[mq st] mn]] eqn:Hs;
    [left; reflexivity |].
  destruct st as [st |]; [| left; reflexivity].
  destruct (adjust_quantity _ st) as [e | q] eqn:Hq; [left; reflexivity |].
  destruct mq as [mq |]; cbn [lt_opt]; [| left; reflexivity].
  destruct (q <? mq) eqn:H1; [left; reflexivity |].
  destruct mn as [mn |]; cbn [lt_opt]; [| left; reflexivity].
  destruct (q * price <? mn) eqn:H2; [left; reflexivity |].
  right. exists filters, mq, st, mn, q. cbn. auto 10.
Qed.

(** The sizer asks for the balance first, and places no order and writes
    no record. *)
Lemma sized_calls (w : world) (price : float) :
  snd (sized w price) = [get_account]
  \/ snd (sized w price) = [get_account; get_symbol_info].
Proof.
  unfold sized, calculate_quantity, calculate_quantity_try. run_monad.
  rewrite !get_balance_eq.
  destruct (balance_of w "USDT" <=? RESERVED_USDT); [left; reflexivity |].
  right.
  destruct (symbol_info w) as [e | info]; [reflexivity |].
  destruct (filters_of info) as [e | filters]; [reflexivity |].
  destruct (scan_filters filters (None, None, None)) as [e | [[mq st] mn]];
    [reflexivity |].
  destruct st as [st |]; [| reflexivity].
  destruct (adjust_quantity _ st) as [e | q]; [reflexivity |].
  destruct (lt_opt q mq) as [e | [|]]; try reflexivity.
  destruct (lt_opt _ mn) as [e | [|]]; reflexivity.
Qed.

Example sizing_of_100_at_008 :
  calculate_quantity w_cheap 0.08 initial
  = (inr 1250, initial, [get_account; get_symbol_info]).
Proof. vm_compute. reflexivity. Qed.

Lemma execute_market_order_eq {S : Type} (w : world) (sd : side) (q : float)
    (s : S) :
  execute_market_order w sd q s = (order_result w, s, [create_order sd q]).
Proof.
  unfold execute_market_order, order_result. run_monad.
  destruct (order w) as [[] | o]; reflexivity.
Qed.

Lemma search_entry_eq (w : world) (r : row) (s : locals) :
  search_entry w r s =
  if entry_signal r then
    let q := fst (sized w (close r)) in
    let cs := snd (sized w (close r)) in
    if 0 <? q then
      match order_result w with
      | inr (Some _) =>
          (inr tt,
           {| position_open := true; entry_price := close r; quantity := q |},
           cs ++ [create_order SIDE_BUY q;
                  log_trade_call (buy_record w (close r) q)])%list
      | inr None => (inr tt, with_quantity s q, cs ++ [create_order SIDE_BUY q])%list
      | inl e => (inl e, with_quantity s q, cs ++ [create_order SIDE_BUY q])%list
      end
    else (inr tt, with_quantity s q, cs)
  else (inr tt, s, []).
Proof.
  unfold search_entry, entry_signal.
  destruct (_ && _); [| reflexivity].
  unfold bind at 1. rewrite calculate_quantity_eq.
  cbv zeta.
  unfold set_quantity, set_entry_price, set_position_open, log_trade,
    with_quantity, buy_record.
  run_monad. cbn [position_open entry_price quantity].
  destruct (0 <? fst (sized w (close r))).
  - rewrite execute_market_order_eq.
    destruct (order_result w) as [e | [o |]];
      cbn [position_open entry_price quantity];
      rewrite ?app_nil_r; reflexivity.
  - rewrite ?app_nil_r. reflexivity.
Qed.

Lemma monitor_trade_eq {S : Type} (w : world) (entry q : float) (s : S) :
  monitor_trade w entry q s =
  match ticker_price w with
  | inl _ => (inr (None, "Error", None), s, [get_symbol_ticker])
  | inr p =>
      if p <=? stop_loss_of entry then
        match order_result w with
        | inr o => (inr (o, "Stop Loss", Some p), s,
                    [get_symbol_ticker; create_order SIDE_SELL q])
        | inl _ => (inr (None, "Error", None), s,
                    [get_symbol_ticker; create_order SIDE_SELL q])
        end
      else if take_profit_of entry <=? p then
        match order_result w with
        | inr o => (inr (o, "Take Profit", Some p), s,
                    [get_symbol_ticker; create_order SIDE_SELL q])
        | inl _ => (inr (None, "Error", None), s,
                    [get_symbol_ticker; create_order SIDE_SELL q])
        end
      else (inr (None, "Abierta", Some p), s, [get_symbol_ticker])
  end.
Proof.
  unfold monitor_trade, ticker_price, stop_loss_of, take_profit_of, Ebind.
  run_monad.
  destruct (symbol_ticker w) as [e | t]; [reflexivity |].
  destruct (getitem t "price") as [e | p]; [reflexivity |].
  destruct (float_of p) as [e | x]; [reflexivity |].
  destruct (x <=? _).
  - rewrite execute_market_order_eq. destruct (order_result w); reflexivity.
  - destruct (_ <=? x).
    + rewrite execute_market_order_eq. destruct (order_result w); reflexivity.
    + reflexivity.
Qed.

Lemma monitor_position_eq (w : world) (s : locals) :
  monitor_position w s =
  match ticker_price w with
  | inl _ => (inr tt, s, [get_symbol_ticker])
  | inr p =>
      if p <=? stop_loss_of (entry_price s) then
        match order_result w with
        | inr o => exit_outcome w s p "Stop Loss" o
        | inl _ => (inr tt, s,
                    [get_symbol_ticker; create_order SIDE_SELL (quantity s)])
        end
      else if take_profit_of (entry_price s) <=? p then
        match order_result w with
        | inr o => exit_outcome w s p "Take Profit" o
        | inl _ => (inr tt, s,
                    [get_symbol_ticker; create_order SIDE_SELL (quantity s)])
        end
      else (inr tt, s, [get_symbol_ticker])
  end.
Proof.
  unfold monitor_position. unfold bind at 1. unfold get at 1.
  unfold bind at 1. rewrite monitor_trade_eq.
  unfold exit_outcome, sell_record, initial.
  destruct (ticker_price w) as [e | p]; [reflexivity |].
  destruct (p <=? _).
  - destruct (order_result w) as [e | [o |]]; reflexivity.
  - destruct (_ <=? p).
    + destruct (order_result w) as [e | [o |]]; reflexivity.
    + reflexivity.
Qed.

Lemma iteration_eq (w : world) (s : locals) :
  iteration w s =
  match snapshot w with
  | inl _ => (inr tt, s, [get_klines])
  | inr r =>
      let '(_, s', cs) :=
        if position_open s then monitor_position w s else search_entry w r s in
      (inr tt, s', get_klines :: cs)
  end.
Proof.
  unfold iteration, snapshot, get_indicators, Ebind. run_monad.
  destruct (klines w) as [e | closes]; [reflexivity |].
  destruct (iloc_last _) as [e | r]; [reflexivity |].
  destruct (position_open s); cbn [negb].
  - destruct (monitor_position w s) as [[[e | []] s2] c2];
      cbn [app]; rewrite ?app_nil_r; reflexivity.
  - destruct (search_entry w r s) as [[[e | []] s2] c2];
      cbn [app]; rewrite ?app_nil_r; reflexivity.
Qed.

(* ================================================================== *)
(** ** Floats: division by zero and NaN in the RSI *)

Lemma positive_cases (g : float) :
  (0 <? g) = true ->
  Prim2SF g = S754_infinity false \/ exists m e, Prim2SF g = S754_finite false m e.
Proof.
  rewrite FloatAxioms.ltb_spec. change (Prim2SF 0) with (S754_zero false).
  destruct (Prim2SF g) as [s | s | | s m e]; cbn; try discriminate.
  - destruct s; [discriminate | auto].
  - destruct s; [discriminate | eauto].
Qed.

Lemma zero_cases (l : float) :
  (l =? 0) = true -> exists s, Prim2SF l = S754_zero s.
Proof.
  rewrite FloatAxioms.eqb_spec. change (Prim2SF 0) with (S754_zero false).
  destruct (Prim2SF l) as [s | s | | s m e]; cbn; try discriminate.
  - eauto.
  - destruct s; discriminate.
  - destruct s; discriminate.
Qed.

Lemma rsi_value_no_loss (g l : float) :
  (0 <? g) = true -> (l =? 0) = true -> rsi_value g l = 100.
Proof.
  intros Hg Hl. unfold rsi_value.
  apply Prim2SF_inj.
  rewrite sub_spec, div_spec, add_spec, div_spec.
  destruct (zero_cases l Hl) as [s ->].
  destruct (positive_cases g Hg) as [-> | (m & e & ->)];
    destruct s; vm_compute; reflexivity.
Qed.

Lemma rsi_value_undefined (g l : float) :
  (g =? 0) = true -> (l =? 0) = true -> rsi_value g l = nan.
Proof.
  intros Hg Hl. unfold rsi_value.
  apply Prim2SF_inj.
  rewrite sub_spec, div_spec, add_spec, div_spec.
  destruct (zero_cases l Hl) as [s ->].
  destruct (zero_cases g Hg) as [s' ->].
  destruct s, s'; vm_compute; reflexivity.
Qed.

Lemma calculate_rsi_eq (s : Pandas.series) (period : nat) :
  calculate_rsi s period =
  map (fun p => rsi_value (fst p) (snd p))
      (combine (avg_gain_of s period) (avg_loss_of s period)).
Proof.
  unfold calculate_rsi, Pandas.rsub, Pandas.rdiv, Pandas.radd, Pandas.div.
  rewrite !map_map. reflexivity.
Qed.

Lemma nth_error_combine {A B : Type} (a : list A) (b : list B) (i : nat) (x : A) (y : B) :
  nth_error a i = Some x -> nth_error b i = Some y ->
  nth_error (combine a b) i = Some (x, y).
Proof.
  revert a b. induction i as [| i IH]; intros [| a0 a] [| b0 b]; cbn;
    try discriminate.
  - intros [= ->] [= ->]. reflexivity.
  - apply IH.
Qed.

Lemma calculate_rsi_nth (s : Pandas.series) (period i : nat) (g l : float) :
  nth_error (avg_gain_of s period) i = Some g ->
  nth_error (avg_loss_of s period) i = Some l ->
  nth_error (calculate_rsi s period) i = Some (rsi_value g l).
Proof.
  intros Hg Hl. rewrite calculate_rsi_eq.
  rewrite nth_error_map, (nth_error_combine _ _ _ _ _ Hg Hl). reflexivity.
Qed.

(** The window holds at most one value more at each index. *)
Lemma add_mean_nobs (st : Pandas.mean_state) (val : float) :
  (Pandas.nobs (Pandas.add_mean st val) <= S (Pandas.nobs st))%nat.
Proof.
  unfold Pandas.add_mean. destruct (val =? val); cbn; lia.
Qed.

Lemma remove_mean_nobs (st : Pandas.mean_state) (val : float) :
  (Pandas.nobs (Pandas.remove_mean st val) <= Pandas.nobs st)%nat.
Proof.
  unfold Pandas.remove_mean. destruct (val =? val); cbn; lia.
Qed.

Lemma state_at_nobs (window : nat) (values : Pandas.series) (i : nat) :
  (Pandas.nobs (Pandas.state_at window values i) <= S i)%nat.
Proof.
  induction i as [| j IH]; cbn [Pandas.state_at].
  - etransitivity; [apply add_mean_nobs | cbn; lia].
  - etransitivity; [apply add_mean_nobs |].
    destruct (window <=? S j)%nat; [| lia].
    pose proof (remove_mean_nobs (Pandas.state_at window values j)
                  (nth (S j - window) values nan)). lia.
Qed.

(** While fewer values than [minp] have been met the mean is NaN. *)
Lemma calc_mean_warm_up (minp window i : nat) (values : Pandas.series) :
  (i + 1 < minp)%nat ->
  Pandas.calc_mean minp (Pandas.state_at window values i) = nan.
Proof.
  intros Hi. unfold Pandas.calc_mean.
  pose proof (state_at_nobs window values i).
  destruct (Nat.leb_spec minp (Pandas.nobs (Pandas.state_at window values i)));
    [lia | reflexivity].
Qed.

Lemma map_seq_constant {A : Type} (f : nat -> A) (c : A) (n a : nat) :
  (forall i, (a <= i < a + n)%nat -> f i = c) ->
  map f (seq a n) = repeat c n.
Proof.
  revert a. induction n as [| n IH]; intros a H; cbn [seq map repeat];
    [reflexivity |].
  rewrite (H a) by lia. f_equal. apply IH. intros i Hi. apply H. lia.
Qed.

(** Short windows: every rolling mean is NaN. *)
Lemma rolling_mean_short (period : nat) (s : Pandas.series) :
  (List.length s < period)%nat ->
  Pandas.rolling_mean period period s = repeat nan (List.length s).
Proof.
  intros Hlen. unfold Pandas.rolling_mean. cbv zeta.
  apply map_seq_constant. intros i Hi. apply calc_mean_warm_up. lia.
Qed.

Lemma diff_from_length (x : float) (s : Pandas.series) :
  List.length (Pandas.diff_from x s) = List.length s.
Proof. revert x. induction s as [| y s IH]; intros x; cbn; [reflexivity | now rewrite IH]. Qed.

Lemma diff_length (s : Pandas.series) : List.length (Pandas.diff s) = List.length s.
Proof. destruct s; cbn; [reflexivity | now rewrite diff_from_length]. Qed.

Lemma gain_of_length (s : Pandas.series) : List.length (gain_of s) = List.length s.
Proof. unfold gain_of, Pandas.where_. now rewrite length_map, diff_length. Qed.

Lemma loss_of_length (s : Pandas.series) : List.length (loss_of s) = List.length s.
Proof. unfold loss_of, Pandas.neg, Pandas.where_. now rewrite !length_map, diff_length. Qed.

Lemma calculate_rsi_short (s : Pandas.series) (period : nat) :
  (List.length s < period)%nat ->
  calculate_rsi s period = repeat nan (List.length s).
Proof.
  intros Hlen. rewrite calculate_rsi_eq. unfold avg_gain_of, avg_loss_of.
  rewrite !rolling_mean_short by (rewrite ?gain_of_length, ?loss_of_length; exact Hlen).
  rewrite gain_of_length, loss_of_length. clear Hlen.
  induction (List.length s) as [| n IH]; cbn [repeat combine map]; [reflexivity |].
  f_equal. apply IH.
Qed.

Lemma zip_columns_rsi (c f s r : Pandas.series) (x : row) :
  iloc_last (zip_columns c f s r) = inr x -> In (rsi x) r.
Proof.
  revert f s r. induction c as [| c0 c IH]; intros [| f0 f] [| s0 s] [| r0 r];
    cbn [zip_columns iloc_last]; try discriminate.
  destruct (zip_columns c f s r) as [| y ys] eqn:Hz.
  - intros [= <-]. left. reflexivity.
  - intros H. right. apply (IH f s r). rewrite Hz. exact H.
Qed.

(** With fewer closes than the period the last row has no RSI. *)
Lemma snapshot_short (w : world) (closes : list float) (r : row) :
  klines w = inr closes -> (List.length closes < RSI_PERIOD)%nat ->
  snapshot w = inr r -> rsi r = nan.
Proof.
  intros Hk Hlen. unfold snapshot, Ebind. rewrite Hk. intros Hr.
  apply zip_columns_rsi in Hr.
  rewrite (calculate_rsi_short _ _ Hlen) in Hr.
  apply repeat_spec in Hr. exact Hr.
Qed.

Lemma entry_signal_nan (r : row) : rsi r = nan -> entry_signal r = false.
Proof.
  intros H. unfold entry_signal. rewrite H.
  change (30 <? nan) with false. cbn. apply andb_false_r.
Qed.

Lemma entry_signal_100 (r : row) : rsi r = 100 -> entry_signal r = false.
Proof.
  intros H. unfold entry_signal. rewrite H.
  change (100 <? 70) with false. rewrite !andb_false_r. reflexivity.
Qed.

Lemma iteration_no_signal (w : world) (s : locals) (r : row) :
  position_open s = false -> snapshot w = inr r -> entry_signal r = false ->
  iteration w s = (inr tt, s, [get_klines]).
Proof.
  intros Hs Hr Hsig. rewrite iteration_eq, Hr, Hs, search_entry_eq, Hsig.
  reflexivity.
Qed.

(* ================================================================== *)
(** ** The RSI and the entry decision *)

(** C8. Where the rolling mean of the losses over RSI_PERIOD samples is 0
    and the rolling mean of the gains is positive, the RSI is exactly 100;
    where both means are 0 the RSI is NaN, that is undefined.  Neither
    value reaches an entry: a searching iteration whose last row has an RSI
    of 100 or NaN ends normally after fetching the klines, with nothing
    assigned and no other call made. *)
Theorem rsi_division_by_zero :
  forall (s : Pandas.series) (i : nat) (g l : float),
    nth_error (avg_gain_of s RSI_PERIOD) i = Some g ->
    nth_error (avg_loss_of s RSI_PERIOD) i = Some l ->
    (l =? 0) = true ->
    ((0 <? g) = true -> nth_error (calculate_rsi s RSI_PERIOD) i = Some 100)
    /\ ((g =? 0) = true -> nth_error (calculate_rsi s RSI_PERIOD) i = Some nan)
    /\ (forall (w : world) (st : locals) (r : row),
          position_open st = false -> snapshot w = inr r ->
          rsi r = 100 \/ rsi r = nan ->
          iteration w st = (inr tt, st, [get_klines])).
Proof.
  intros s i g l Hg Hl Hzero. repeat split.
  - intros Hpos. rewrite (calculate_rsi_nth _ _ _ _ _ Hg Hl).
    now rewrite rsi_value_no_loss.
  - intros Hg0. rewrite (calculate_rsi_nth _ _ _ _ _ Hg Hl).
    now rewrite rsi_value_undefined.
  - intros w st r Hst Hr [H | H].
    + apply (iteration_no_signal w st r Hst Hr), entry_signal_100, H.
    + apply (iteration_no_signal w st r Hst Hr), entry_signal_nan, H.
Qed.

Lemma rsi_division_by_zero_witness :
  nth_error (calculate_rsi rising15 RSI_PERIOD) 14 = Some 100.
Proof.
  destruct (rsi_division_by_zero rising15 14 1 (-0)) as (H1 & _ & _).
  - vm_compute. reflexivity.
  - vm_compute. reflexivity.
  - vm_compute. reflexivity.
  - apply H1. vm_compute. reflexivity.
Defined.

(** C9, as the code has it. With fewer than RSI_PERIOD closes the
    indicators are computed without any exception and every RSI of the
    Series is NaN, the last row's too; a searching iteration then ends
    normally after fetching the klines, with nothing assigned and no entry
    attempted.  (With no close at all the row lookup raises IndexError,
    which the iteration catches, to the same effect.) *)
Theorem no_rsi_below_period :
  forall (w : world) (closes : list float) (s : locals),
    klines w = inr closes ->
    (List.length closes < RSI_PERIOD)%nat ->
    position_open s = false ->
    calculate_rsi closes RSI_PERIOD = repeat nan (List.length closes)
    /\ (exists df, get_indicators w s = (inr df, s, [get_klines]))
    /\ (forall r, snapshot w = inr r -> rsi r = nan)
    /\ iteration w s = (inr tt, s, [get_klines]).
Proof.
  intros w closes s Hk Hlen Hs. repeat split.
  - apply calculate_rsi_short, Hlen.
  - unfold get_indicators. run_monad. rewrite Hk. eexists. reflexivity.
  - intros r Hr. apply (snapshot_short w closes r Hk Hlen Hr).
  - destruct (snapshot w) as [e | r] eqn:Hr.
    + rewrite iteration_eq, Hr. reflexivity.
    + apply (iteration_no_signal w s r Hs Hr), entry_signal_nan.
      apply (snapshot_short w closes r Hk Hlen Hr).
Qed.

Lemma no_rsi_below_period_witness :
  iteration w_thirteen initial = (inr tt, initial, [get_klines]).
Proof.
  apply (no_rsi_below_period w_thirteen (tl closes14) initial).
  - reflexivity.
  - vm_compute. lia.
  - reflexivity.
Defined.

(** C9 fails as stated: fourteen closes are fewer than RSI_PERIOD + 1, yet
    the last row has the RSI 50 and the searching iteration buys. *)
Lemma rsi_from_fourteen_closes :
  klines w_buy = inr closes14
  /\ (List.length closes14 < RSI_PERIOD + 1)%nat
  /\ (exists r, snapshot w_buy = inr r /\ rsi r = 50)
  /\ orders_of (calls_of w_buy initial) = [(SIDE_BUY, 25)].
Proof.
  repeat split.
  - vm_compute. lia.
  - eexists. split; vm_compute; reflexivity.
Qed.

(* ================================================================== *)
(** ** The position sizer *)

Lemma search_entry_rejected (w : world) (r : row) (s : locals) :
  fst (sized w (close r)) = 0 ->
  orders_of (snd (search_entry w r s)) = []
  /\ trades_of (snd (search_entry w r s)) = []
  /\ position_open (snd (fst (search_entry w r s))) = position_open s.
Proof.
  intros Hq. rewrite search_entry_eq.
  destruct (entry_signal r); [| repeat split].
  cbv zeta. rewrite Hq. change (0 <? 0) with false.
  destruct (sized_calls w (close r)) as [-> | ->]; repeat split.
Qed.

(** C7. Whenever the free USDT balance that [get_balance] answers is at
    most the reserve, the sizer returns 0.0 after that one call, whatever
    the price and without asking for the symbol's filters; an entry that
    calls it places no order, writes no record and leaves the position
    closed.  The reserve is 20 and a balance of 15 is at most it. *)
Theorem insufficient_reserve_rejected :
  forall (S : Type) (w : world) (price b : float) (s : S),
    fst (fst (get_balance w "USDT" s)) = inr b ->
    (b <=? RESERVED_USDT) = true ->
    calculate_quantity w price s = (inr 0, s, [get_account])
    /\ (forall (r : row) (st : locals),
          orders_of (snd (search_entry w r st)) = []
          /\ trades_of (snd (search_entry w r st)) = []
          /\ position_open (snd (fst (search_entry w r st))) = position_open st)
    /\ RESERVED_USDT = 20
    /\ (15 <=? RESERVED_USDT) = true.
Proof.
  intros S w price b s Hb Hle.
  rewrite get_balance_eq in Hb. cbn in Hb. injection Hb as Hb.
  assert (Hsized : forall p, sized w p = (0, [get_account])).
  { intros p. unfold sized, calculate_quantity, calculate_quantity_try.
    run_monad. rewrite get_balance_eq, Hb, Hle. reflexivity. }
  repeat split.
  - rewrite calculate_quantity_eq, Hsized. reflexivity.
  - apply search_entry_rejected. now rewrite Hsized.
  - apply search_entry_rejected. now rewrite Hsized.
  - apply search_entry_rejected. now rewrite Hsized.
Qed.

Lemma insufficient_reserve_rejected_witness :
  calculate_quantity w_poor 4 initial = (inr 0, initial, [get_account]).
Proof.
  apply (insufficient_reserve_rejected locals w_poor 4 15 initial).
  - reflexivity.
  - reflexivity.
Defined.

Lemma scan_filters_lacks_notional (filters : list dict)
    (a b c a' b' c' : option float) :
  lacks "NOTIONAL" filters ->
  scan_filters filters (a, b, c) = inr (a', b', c') -> c' = c.
Proof.
  revert a b c. induction filters as [| f filters IH]; intros a b c Hl.
  - cbn. intros [= _ _ ->]. reflexivity.
  - cbn [scan_filters]. unfold Ebind.
    destruct (getitem f "filterType") as [e | t] eqn:Ht; [discriminate |].
    assert (Hn : eq_str t "NOTIONAL" = false)
      by (apply (Hl f t); [left; reflexivity | exact Ht]).
    assert (Hl' : lacks "NOTIONAL" filters)
      by (intros f0 v Hin; apply Hl; right; exact Hin).
    rewrite Hn.
    destruct (eq_str t "LOT_SIZE").
    + destruct (getitem f "minQty") as [e | x]; [discriminate |].
      destruct (float_of x); [discriminate |].
      destruct (getitem f "stepSize") as [e | y]; [discriminate |].
      destruct (float_of y); [discriminate |].
      apply IH, Hl'.
    + apply IH, Hl'.
Qed.

Lemma scan_filters_lacks_lot_size (filters : list dict)
    (a b c a' b' c' : option float) :
  lacks "LOT_SIZE" filters ->
  scan_filters filters (a, b, c) = inr (a', b', c') -> a' = a /\ b' = b.
Proof.
  revert a b c. induction filters as [| f filters IH]; intros a b c Hl.
  - cbn. intros [= -> -> _]. split; reflexivity.
  - cbn [scan_filters]. unfold Ebind.
    destruct (getitem f "filterType") as [e | t] eqn:Ht; [discriminate |].
    assert (Hn : eq_str t "LOT_SIZE" = false)
      by (apply (Hl f t); [left; reflexivity | exact Ht]).
    assert (Hl' : lacks "LOT_SIZE" filters)
      by (intros f0 v Hin; apply Hl; right; exact Hin).
    rewrite Hn.
    destruct (eq_str t "NOTIONAL").
    + destruct (getitem f "minNotional") as [e | x]; [discriminate |].
      destruct (float_of x); [discriminate |].
      apply IH, Hl'.
    + apply IH, Hl'.
Qed.

(** C10. When the filters of the symbol hold no NOTIONAL filter the sizer
    returns 0.0 and an entry that calls it places no order: once the
    LOT_SIZE filter has given the step and the floored quantity is not
    below the minimum quantity, the comparison of the trade value with
    [None] raises TypeError in the try block, which the handler turns into
    0.0.  When they hold no LOT_SIZE filter the step stays [None] and the
    try block itself returns 0.0 at its check of the step. *)
Theorem missing_filter_rejects :
  forall (S : Type) (w : world) (price : float) (filters : list dict) (s : S),
    symbol_info w = inr (Some filters) ->
    (lacks "NOTIONAL" filters ->
       fst (fst (calculate_quantity w price s)) = inr 0
       /\ (forall (r : row) (st : locals),
             orders_of (snd (search_entry w r st)) = [])
       /\ (forall min_qty step_size min_notional floored,
             (balance_of w "USDT" <=? RESERVED_USDT) = false ->
             scan_filters filters (None, None, None)
               = inr (Some min_qty, Some step_size, min_notional) ->
             adjust_quantity ((balance_of w "USDT" - RESERVED_USDT) / price)
               step_size = inr floored ->
             (floored <? min_qty) = false ->
             calculate_quantity_try w price s
               = (inl TypeError, s, [get_account; get_symbol_info])))
    /\ (lacks "LOT_SIZE" filters ->
          fst (fst (calculate_quantity w price s)) = inr 0
          /\ (forall (r : row) (st : locals),
                orders_of (snd (search_entry w r st)) = [])
          /\ (forall acc,
                (balance_of w "USDT" <=? RESERVED_USDT) = false ->
                scan_filters filters (None, None, None) = inr acc ->
                calculate_quantity_try w price s
                  = (inr 0, s, [get_account; get_symbol_info]))).
Proof.
  intros S w price filters s Hinfo. split; intros Hl.
  - assert (Hz : forall p, fst (sized w p) = 0).
    { intros p. destruct (sized_inv w p) as [H | H]; [exact H |].
      destruct H as (fs & mq & st & mn & q & _ & Hi & Hs & _).
      rewrite Hinfo in Hi. injection Hi as <-.
      apply (scan_filters_lacks_notional _ _ _ _ _ _ _ Hl) in Hs.
      discriminate. }
    repeat split.
    + rewrite calculate_quantity_eq. cbn. now rewrite Hz.
    + intros r st. apply search_entry_rejected, Hz.
    + intros mq st mn q Hb Hs Hq Hlt.
      assert (mn = None) by apply (scan_filters_lacks_notional _ _ _ _ _ _ _ Hl Hs).
      subst mn.
      unfold calculate_quantity_try. run_monad.
      rewrite get_balance_eq, Hb, Hinfo. cbn [filters_of].
      rewrite Hs, Hq. cbn [lt_opt]. rewrite Hlt. reflexivity.
  - assert (Hz : forall p, fst (sized w p) = 0).
    { intros p. destruct (sized_inv w p) as [H | H]; [exact H |].
      destruct H as (fs & mq & st & mn & q & _ & Hi & Hs & _).
      rewrite Hinfo in Hi. injection Hi as <-.
      apply (scan_filters_lacks_lot_size _ _ _ _ _ _ _ Hl) in Hs.
      destruct Hs; discriminate. }
    repeat split.
    + rewrite calculate_quantity_eq. cbn. now rewrite Hz.
    + intros r st. apply search_entry_rejected, Hz.
    + intros [[mq st] mn] Hb Hs.
      destruct (scan_filters_lacks_lot_size _ _ _ _ _ _ _ Hl Hs) as [-> ->].
      unfold calculate_quantity_try. run_monad.
      rewrite get_balance_eq, Hb, Hinfo. cbn [filters_of].
      rewrite Hs. reflexivity.
Qed.

Lemma missing_filter_rejects_witness :
  fst (fst (calculate_quantity w_no_notional 4 initial)) = inr 0
  /\ calculate_quantity_try w_no_notional 4 initial
     = (inl TypeError, initial, [get_account; get_symbol_info])
  /\ calculate_quantity_try w_no_lot_size 4 initial
     = (inr 0, initial, [get_account; get_symbol_info]).
Proof.
  destruct (missing_filter_rejects locals w_no_notional 4
              [price_filter; lot_size 1 1] initial eq_refl) as [H1 _].
  destruct (missing_filter_rejects locals w_no_lot_size 4
              [price_filter; notional 5] initial eq_refl) as [_ H2].
  assert (Hn : lacks "NOTIONAL" [price_filter; lot_size 1 1]).
  { intros f v [<- | [<- | []]] [= <-]; reflexivity. }
  assert (Hl : lacks "LOT_SIZE" [price_filter; notional 5]).
  { intros f v [<- | [<- | []]] [= <-]; reflexivity. }
  destruct (H1 Hn) as (A & _ & B).
  destruct (H2 Hl) as (_ & _ & C).
  split; [exact A | split].
  - apply (B 1 1 None 25); reflexivity.
  - apply (C (None, None, Some 5)); reflexivity.
Defined.

(* ================================================================== *)
(** ** The state machine: entry *)

Lemma trades_of_app (a b : list request) :
  trades_of (a ++ b) = (trades_of a ++ trades_of b)%list.
Proof.
  induction a as [| [] a IH]; cbn; rewrite ?IH; reflexivity.
Qed.

Lemma orders_of_app (a b : list request) :
  orders_of (a ++ b) = (orders_of a ++ orders_of b)%list.
Proof.
  induction a as [| [] a IH]; cbn; rewrite ?IH; reflexivity.
Qed.

Lemma sized_no_trade (w : world) (price : float) :
  trades_of (snd (sized w price)) = [] /\ orders_of (snd (sized w price)) = [].
Proof.
  destruct (sized_calls w price) as [-> | ->]; split; reflexivity.
Qed.

Lemma sized_asks_balance (w : world) (price : float) (cs : list request) :
  In get_account (get_klines :: snd (sized w price) ++ cs).
Proof.
  destruct (sized_calls w price) as [-> | ->]; right; left; reflexivity.
Qed.

(** C5. While searching, on the last row of the indicators, the sizer is
    called (the balance is asked for) exactly when ema_fast > ema_slow and
    30 < rsi < 70, so not when the RSI is 30 or 70; without the signal the
    iteration ends after the klines with nothing assigned.  With the
    signal the iteration makes the calls of the sizer and then, when the
    sized quantity is positive, sends one BUY order of that quantity.
    When the order is answered with an order the position opens at the
    close with the sized quantity and the one record written, right after
    the order, is the BUY record with no exit price and no result.  When
    the sized quantity is not positive no order is sent, and when the
    order raises nothing more is called: in both cases the position stays
    closed and no record is written.  The position opens in no other
    case. *)
Theorem entry_on_signal_only :
  forall (w : world) (s : locals) (r : row),
    position_open s = false -> snapshot w = inr r ->
    let signal :=
      (ema_slow r <? ema_fast r) && ((30 <? rsi r) && (rsi r <? 70)) in
    let q := fst (sized w (close r)) in
    let asked := snd (sized w (close r)) in
    let stays_closed :=
      {| position_open := false; entry_price := entry_price s;
         quantity := q |} in
    let record :=
      {| Timestamp := now w; Symbol := SYMBOL; Side := SIDE_BUY;
         Quantity := q; Entry_Price := close r;
         Stop_Loss := close r * (1 - STOP_LOSS_PERCENT);
         Take_Profit := close r * (1 + TAKE_PROFIT_PERCENT);
         Exit_Price := None; Result := None |} in
    (calculate_quantity w (close r) s = (inr q, s, asked)
     /\ hd_error asked = Some get_account
     /\ orders_of asked = [] /\ trades_of asked = [])
    /\ (rsi r = 30 \/ rsi r = 70 -> signal = false)
    /\ (signal = false -> iteration w s = (inr tt, s, [get_klines]))
    /\ (signal = true -> (0 <? q) = false ->
        iteration w s = (inr tt, stays_closed, get_klines :: asked))
    /\ (signal = true -> (0 <? q) = true -> forall e, order w = inl e ->
        iteration w s
        = (inr tt, stays_closed,
           get_klines :: asked ++ [create_order SIDE_BUY q])%list)
    /\ (signal = true -> (0 <? q) = true -> forall o, order w = inr o ->
        iteration w s
        = (inr tt,
           {| position_open := true; entry_price := close r; quantity := q |},
           get_klines :: asked
             ++ [create_order SIDE_BUY q; log_trade_call record])%list)
    /\ (In get_account (calls_of w s) <-> signal = true)
    /\ (position_open (locals_after w s) = true
        <-> signal = true /\ (0 <? q) = true /\ exists o, order w = inr o)
    /\ (position_open (locals_after w s) = true ->
        locals_after w s
          = {| position_open := true; entry_price := close r; quantity := q |}
        /\ orders_of (calls_of w s) = [(SIDE_BUY, q)]
        /\ trades_of (calls_of w s) = [record])
    /\ (position_open (locals_after w s) = false ->
        trades_of (calls_of w s) = []).
Proof.
  intros w s r Hs Hr signal q asked stays_closed record.
  assert (Hit : iteration w s =
    let '(_, s', cs) := search_entry w r s in (inr tt, s', get_klines :: cs))
    by (rewrite iteration_eq, Hr, Hs; reflexivity).
  rewrite search_entry_eq in Hit.
  change (entry_signal r) with signal in Hit.
  cbv zeta in Hit. fold q asked in Hit.
  change (buy_record w (close r) q) with record in Hit.
  change (with_quantity s q) with
    {| position_open := position_open s; entry_price := entry_price s;
       quantity := q |} in Hit.
  rewrite Hs in Hit. fold stays_closed in Hit.
  pose proof (sized_no_trade w (close r)) as [Ht Ho].
  fold asked in Ht, Ho.
  assert (Hhd : hd_error asked = Some get_account)
    by (unfold asked; destruct (sized_calls w (close r)) as [-> | ->];
        reflexivity).
  assert (Hb : rsi r = 30 \/ rsi r = 70 -> signal = false).
  { unfold signal. intros [-> | ->].
    - change (30 <? 30) with false. cbn. apply andb_false_r.
    - change (70 <? 70) with false. rewrite !andb_false_r. reflexivity. }
  assert (Hin : forall cs, In get_account (get_klines :: asked ++ cs)%list).
  { intros cs. right. destruct asked as [| c asked']; [discriminate |].
    injection Hhd as ->. left. reflexivity. }
  split; [| split; [exact Hb |]].
  { repeat split; try assumption. apply calculate_quantity_eq. }
  unfold calls_of, locals_after. rewrite Hit. clear Hit.
  destruct signal eqn:Hsig.
  - destruct (0 <? q) eqn:Hq; unfold order_result.
    + destruct (order w) as [e | o] eqn:Hord.
      * destruct e; cbn [fst snd trades_of];
          rewrite trades_of_app, Ht; cbn [trades_of app position_open stays_closed];
          (repeat split; try (intros; discriminate);
           try (intros _; apply Hin);
           try (intros (_ & _ & o & Ho'); discriminate);
           try (intros _ _ e' _; reflexivity)).
      * cbn [fst snd trades_of orders_of position_open].
        rewrite trades_of_app, orders_of_app, Ht, Ho.
        cbn [trades_of orders_of app].
        repeat split; try (intros; discriminate); eauto.
    + cbn [fst snd trades_of position_open stays_closed]. rewrite Ht.
      repeat split; try (intros; discriminate).
      * intros _. rewrite <- (app_nil_r asked). apply Hin.
      * intros (_ & H & _). discriminate.
  - cbn [fst snd trades_of]. rewrite Hs.
    repeat split; try (intros; discriminate).
    + intros [H | []]. discriminate.
    + intros (H & _). discriminate.
Qed.

Lemma entry_on_signal_only_witness :
  iteration w_buy initial
  = (inr tt, {| position_open := true; entry_price := 4; quantity := 25 |},
     [get_klines; get_account; get_symbol_info; create_order SIDE_BUY 25;
      log_trade_call
        {| Timestamp := "2025-01-01 00:00:00"; Symbol := "DOGEUSDT";
           Side := SIDE_BUY; Quantity := 25; Entry_Price := 4;
           Stop_Loss := 3.96; Take_Profit := 4.08;
           Exit_Price := None; Result := None |}]).
Proof.
  destruct (entry_on_signal_only w_buy initial
              {| close := 4; ema_fast := 3.4069569896448009;
                 ema_slow := 3.250716935504518; rsi := 50 |})
    as (_ & _ & _ & _ & _ & H & _).
  - reflexivity.
  - vm_compute. reflexivity.
  - apply (H eq_refl eq_refl filled eq_refl).
Defined.

(* ================================================================== *)
(** ** The state machine: exit *)

Lemma iteration_open (w : world) (s : locals) (r : row) :
  position_open s = true -> snapshot w = inr r ->
  iteration w s =
  let '(_, s', cs) := monitor_position w s in (inr tt, s', get_klines :: cs).
Proof.
  intros Hs Hr. rewrite iteration_eq, Hr, Hs. reflexivity.
Qed.

(** C6. While a position is open and the ticker gives the price, the
    price is compared with entry_price * (1 - STOP_LOSS_PERCENT) and
    entry_price * (1 + TAKE_PROFIT_PERCENT).  At or under the first, the
    position's quantity is sold and, the executor having answered, the
    result is "Stop Loss", whether or not the price also reaches the second;
    otherwise at or over the second it is sold with the result "Take
    Profit"; a filled sell writes the SELL record with that result and the
    price, and closes the position.  Otherwise the iteration only reads the
    klines and the ticker: nothing is sold, written or assigned.  With the
    entry price 1.00 the two prices are 0.99 and 1.02; 0.98 closes with
    "Stop Loss", 1.03 with "Take Profit", and 1.00 leaves the position
    open. *)
Theorem exit_by_stop_loss_first :
  forall (w : world) (s : locals) (r : row) (p : float),
    position_open s = true -> snapshot w = inr r -> ticker_price w = inr p ->
    let stop_loss_price := entry_price s * (1 - STOP_LOSS_PERCENT) in
    let take_profit_price := entry_price s * (1 + TAKE_PROFIT_PERCENT) in
    let sold := [get_symbol_ticker; create_order SIDE_SELL (quantity s)] in
    ((p <=? stop_loss_price) = true ->
       forall o, order_result w = inr o ->
         monitor_trade w (entry_price s) (quantity s) s
           = (inr (o, "Stop Loss", Some p), s, sold)
         /\ (o <> None ->
             locals_after w s = initial
             /\ trades_of (calls_of w s) = [sell_record w s p "Stop Loss"]))
    /\ ((p <=? stop_loss_price) = false -> (take_profit_price <=? p) = true ->
          forall o, order_result w = inr o ->
            monitor_trade w (entry_price s) (quantity s) s
              = (inr (o, "Take Profit", Some p), s, sold)
            /\ (o <> None ->
                locals_after w s = initial
                /\ trades_of (calls_of w s) = [sell_record w s p "Take Profit"]))
    /\ ((p <=? stop_loss_price) = false -> (take_profit_price <=? p) = false ->
          iteration w s = (inr tt, s, [get_klines; get_symbol_ticker]))
    /\ (entry_price s = 1 ->
          stop_loss_price = 0.99 /\ take_profit_price = 1.02
          /\ (p = 0.98 -> forall o, order w = inr o ->
                locals_after w s = initial
                /\ trades_of (calls_of w s) = [sell_record w s 0.98 "Stop Loss"])
          /\ (p = 1.03 -> forall o, order w = inr o ->
                locals_after w s = initial
                /\ trades_of (calls_of w s) = [sell_record w s 1.03 "Take Profit"])
          /\ (p = 1 ->
                iteration w s = (inr tt, s, [get_klines; get_symbol_ticker]))).
Proof.
  intros w s r p Hs Hr Hp stop_loss_price take_profit_price sold.
  pose proof (iteration_open w s r Hs Hr) as Hit.
  rewrite monitor_position_eq, Hp in Hit.
  unfold calls_of, locals_after.
  rewrite monitor_trade_eq, Hp.
  change (stop_loss_of (entry_price s)) with stop_loss_price in *.
  change (take_profit_of (entry_price s)) with take_profit_price in *.
  split; [| split; [| split]].
  - intros Hsl o Ho. rewrite Hit, Hsl, Ho. split; [reflexivity |].
    destruct o as [o |]; [intros _ | intros H; now elim H].
    split; reflexivity.
  - intros Hsl Htp o Ho. rewrite Hit, Hsl, Htp, Ho. split; [reflexivity |].
    destruct o as [o |]; [intros _ | intros H; now elim H].
    split; reflexivity.
  - intros Hsl Htp. rewrite Hit, Hsl, Htp. reflexivity.
  - intros He. unfold stop_loss_price, take_profit_price in *.
    rewrite He in *.
    split; [reflexivity | split; [reflexivity |]].
    split; [| split].
    + intros -> o Ho. rewrite Hit. unfold order_result. rewrite Ho.
      change (0.98 <=? 1 * (1 - STOP_LOSS_PERCENT)) with true. cbv iota.
      split; reflexivity.
    + intros -> o Ho. rewrite Hit. unfold order_result. rewrite Ho.
      change (1.03 <=? 1 * (1 - STOP_LOSS_PERCENT)) with false.
      change (1 * (1 + TAKE_PROFIT_PERCENT) <=? 1.03) with true. cbv iota.
      split; reflexivity.
    + intros ->. rewrite Hit.
      change (1 <=? 1 * (1 - STOP_LOSS_PERCENT)) with false.
      change (1 * (1 + TAKE_PROFIT_PERCENT) <=? 1) with false. reflexivity.
Qed.

Lemma exit_by_stop_loss_first_witness :
  iteration (answering 20 doge_filters 4 (inr filled)) held
  = (inr tt, held, [get_klines; get_symbol_ticker]).
Proof.
  destruct (exit_by_stop_loss_first (answering 20 doge_filters 4 (inr filled))
              held
              {| close := 4; ema_fast := 3.4069569896448009;
                 ema_slow := 3.250716935504518; rsi := 50 |} 4)
    as (_ & _ & H & _).
  - reflexivity.
  - vm_compute. reflexivity.
  - reflexivity.
  - apply H; reflexivity.
Defined.

(* ================================================================== *)
(** ** The quantity that is sized and the quantity that is bought *)

(** C3 fails as stated: with a step of 0.1 and room for three steps the
    floored quantity is 0.30000000000000004, the sizer returns its rounding
    0.3, and 0.3 is the quantity of the BUY order. *)
Lemma submitted_quantity_is_rounded :
  adjust_quantity ((balance_of w_step_tenth "USDT" - RESERVED_USDT) / 4) 0.1
    = inr 0.30000000000000004
  /\ fst (sized w_step_tenth 4) = 0.3
  /\ orders_of (calls_of w_step_tenth initial) = [(SIDE_BUY, 0.3)]
  /\ (0.3 <? 0.30000000000000004) = true.
Proof.
  repeat split; vm_compute; reflexivity.
Qed.

(** A sizing that passes every check returns the floored quantity rounded
    to six decimals, after the two requests. *)
Lemma sized_when_accepted (w : world) (price : float) (filters : list dict)
    (min_qty step_size min_notional floored : float) :
  (balance_of w "USDT" <=? RESERVED_USDT) = false ->
  symbol_info w = inr (Some filters) ->
  scan_filters filters (None, None, None)
    = inr (Some min_qty, Some step_size, Some min_notional) ->
  adjust_quantity ((balance_of w "USDT" - RESERVED_USDT) / price) step_size
    = inr floored ->
  (floored <? min_qty) = false ->
  (floored * price <? min_notional) = false ->
  sized w price = (round floored 6, [get_account; get_symbol_info]).
Proof.
  intros Hb Hi Hs Ha H1 H2.
  unfold sized, calculate_quantity, calculate_quantity_try. run_monad.
  rewrite get_balance_eq, Hb, Hi. cbn [filters_of]. rewrite Hs, Ha.
  cbn [lt_opt]. rewrite H1, H2. reflexivity.
Qed.

(** C3, as the code has it. Take a sizing that succeeds: the balance that
    [get_balance] answers is above the reserve, the filters of the symbol
    give a minimum quantity, a step and a minimum notional, and the
    quantity floored to the step passes both minimum checks.  Then
    [calculate_quantity] returns that floored quantity rounded to six
    decimals, and the rounded value is the one that leaves the sizer: when
    the entry condition holds and it is positive, it is the quantity of the
    one BUY order sent and, once the order is answered, the quantity of
    the position and of the BUY record; when it is not positive no order
    is sent. *)
Theorem bought_quantity_is_the_rounded_one :
  forall (w : world) (s : locals) (r : row) (filters : list dict)
         (b min_qty step_size min_notional floored : float),
    position_open s = false -> snapshot w = inr r ->
    (ema_slow r <? ema_fast r) && ((30 <? rsi r) && (rsi r <? 70)) = true ->
    fst (fst (get_balance w "USDT" s)) = inr b ->
    (b <=? RESERVED_USDT) = false ->
    symbol_info w = inr (Some filters) ->
    scan_filters filters (None, None, None)
      = inr (Some min_qty, Some step_size, Some min_notional) ->
    adjust_quantity ((b - RESERVED_USDT) / close r) step_size = inr floored ->
    (floored <? min_qty) = false ->
    (floored * close r <? min_notional) = false ->
    let q := round floored 6 in
    let sizing := [get_klines; get_account; get_symbol_info] in
    let stays_closed :=
      {| position_open := false; entry_price := entry_price s;
         quantity := q |} in
    calculate_quantity w (close r) s
      = (inr q, s, [get_account; get_symbol_info])
    /\ ((0 <? q) = false -> iteration w s = (inr tt, stays_closed, sizing))
    /\ ((0 <? q) = true ->
        orders_of (calls_of w s) = [(SIDE_BUY, q)]
        /\ (forall e, order w = inl e ->
              iteration w s
              = (inr tt, stays_closed,
                 sizing ++ [create_order SIDE_BUY q])%list)
        /\ (forall o, order w = inr o ->
              iteration w s
              = (inr tt,
                 {| position_open := true; entry_price := close r;
                    quantity := q |},
                 sizing
                   ++ [create_order SIDE_BUY q;
                       log_trade_call
                         {| Timestamp := now w; Symbol := SYMBOL;
                            Side := SIDE_BUY; Quantity := q;
                            Entry_Price := close r;
                            Stop_Loss := close r * (1 - STOP_LOSS_PERCENT);
                            Take_Profit := close r * (1 + TAKE_PROFIT_PERCENT);
                            Exit_Price := None; Result := None |}])%list)).
Proof.
  intros w s r filters b min_qty step_size min_notional floored
         Hs Hr Hsig Hbal Hb Hi Hscan Ha H1 H2 q sizing stays_closed.
  rewrite get_balance_eq in Hbal. cbn [fst] in Hbal. injection Hbal as <-.
  pose proof (sized_when_accepted w (close r) filters min_qty step_size
                min_notional floored Hb Hi Hscan Ha H1 H2) as Hsized.
  fold q in Hsized.
  assert (Hit : iteration w s =
    let '(_, s', cs) := search_entry w r s in (inr tt, s', get_klines :: cs))
    by (rewrite iteration_eq, Hr, Hs; reflexivity).
  rewrite search_entry_eq in Hit.
  change (entry_signal r) with
    ((ema_slow r <? ema_fast r) && ((30 <? rsi r) && (rsi r <? 70))) in Hit.
  rewrite Hsig, Hsized in Hit. cbv zeta in Hit. cbn [fst snd] in Hit.
  unfold with_quantity, buy_record in Hit. rewrite Hs in Hit.
  split; [rewrite calculate_quantity_eq, Hsized; reflexivity |].
  unfold calls_of. rewrite Hit. clear Hit.
  split.
  - intros ->. reflexivity.
  - intros ->. unfold order_result.
    destruct (order w) as [e | o].
    + destruct e; (repeat split; try (intros; discriminate);
                   try (intros e' _; reflexivity)).
    + repeat split; try (intros; discriminate).
Qed.

Lemma bought_quantity_is_the_rounded_one_witness :
  calculate_quantity w_step_tenth 4 initial
    = (inr 0.3, initial, [get_account; get_symbol_info])
  /\ iteration w_step_tenth initial
     = (inr tt,
        {| position_open := true; entry_price := 4; quantity := 0.3 |},
        [get_klines; get_account; get_symbol_info; create_order SIDE_BUY 0.3;
         log_trade_call
           {| Timestamp := "2025-01-01 00:00:00"; Symbol := "DOGEUSDT";
              Side := SIDE_BUY; Quantity := 0.3; Entry_Price := 4;
              Stop_Loss := 3.96; Take_Profit := 4.08;
              Exit_Price := None; Result := None |}]).
Proof.
  destruct (bought_quantity_is_the_rounded_one w_step_tenth initial
              {| close := 4; ema_fast := 3.4069569896448009;
                 ema_slow := 3.250716935504518; rsi := 50 |}
              [lot_size 0.1 0.1; notional 1] 21.4 0.1 0.1 1
              0.30000000000000004)
    as (Hq & _ & Hbuy).
  - reflexivity.
  - vm_compute. reflexivity.
  - reflexivity.
  - reflexivity.
  - reflexivity.
  - reflexivity.
  - reflexivity.
  - vm_compute. reflexivity.
  - reflexivity.
  - reflexivity.
  - split; [exact Hq |].
    destruct (Hbuy eq_refl) as (_ & _ & Hfill).
    apply (Hfill filled eq_refl).
Defined.

(** The integer floor of a float is at most its exact value, and the next
    integer is above it. *)
Lemma math_floor_bounds (x : float) (n : Z) :
  math_floor x = inr n ->
  (inject_Z n <= to_Q x)%Q /\ (to_Q x < inject_Z (n + 1))%Q.
Proof.
  unfold math_floor, to_Q.
  destruct (Prim2SF x) as [sg | sg | | sg m e]; try discriminate.
  - intros [= <-]. split; [apply Qle_refl | reflexivity].
  - intros [= <-]. unfold floor_finite.
    set (a := cond_Zopp sg (Zpos m)).
    destruct (Z.leb_spec 0 e) as [He | He].
    + rewrite Z.shiftl_mul_pow2 by exact He.
      split; [apply Qle_refl |].
      rewrite <- Zlt_Qlt. lia.
    + rewrite Z.shiftl_div_pow2 by lia.
      assert (Hd : (0 < 2 ^ (- e))%Z) by (apply Z.pow_pos_nonneg; lia).
      unfold Qle, Qlt. cbn [Qnum Qden inject_Z].
      rewrite Z2Pos.id by exact Hd.
      pose proof (Z.mul_div_le a (2 ^ (- e)) Hd).
      pose proof (Z.mul_succ_div_gt a (2 ^ (- e)) Hd).
      split; lia.
Qed.

(** C4 fails as stated: with 255.2 USDT, the reserve of 20, a price of
    0.32 and whole units, the quotient 235.2 / 0.32 rounds to 735, the
    sizer accepts 735, and 735 units at 0.32 are 235.20000000000002, more
    than the remainder 235.2. *)
Lemma notional_exceeds_remainder :
  balance_of w_notional "USDT" - RESERVED_USDT = 235.2
  /\ adjust_quantity (235.2 / 0.32) 1 = inr 735
  /\ fst (sized w_notional 0.32) = 735
  /\ 735 * 0.32 = 235.20000000000002
  /\ (235.2 <? 735 * 0.32) = true.
Proof.
  repeat split; vm_compute; reflexivity.
Qed.

(** C4, as the code has it. Whenever [adjust_quantity] returns, for a
    remainder, a price and a step, the quantity is the float product of the
    step by an integer, the floor of the float quotient
    (remainder / price) / step_size: that integer is at most the quotient,
    and the next integer is above it, exactly.  Nothing bounds the product of the
    quantity by the price, each operation rounding to the nearest float. *)
Theorem quantity_is_floor_of_float_quotient :
  forall (remainder price step_size quantity : float),
    adjust_quantity (remainder / price) step_size = inr quantity ->
    exists (n : Z) (f : float),
      math_floor (remainder / price / step_size) = inr n
      /\ (inject_Z n <= to_Q (remainder / price / step_size))%Q
      /\ (to_Q (remainder / price / step_size) < inject_Z (n + 1))%Q
      /\ int_to_float n = inr f
      /\ quantity = f * step_size.
Proof.
  intros remainder price step_size quantity. unfold adjust_quantity, Ebind.
  destruct (math_floor _) as [e | n] eqn:Hn; [discriminate |].
  destruct (int_to_float n) as [e | f] eqn:Hf; [discriminate |].
  intros [= <-]. exists n, f.
  destruct (math_floor_bounds _ _ Hn) as [H1 H2]. auto.
Qed.

Lemma quantity_is_floor_of_float_quotient_witness :
  exists (n : Z) (f : float),
    math_floor (235.2 / 0.32 / 1) = inr n
    /\ (inject_Z n <= to_Q (235.2 / 0.32 / 1))%Q
    /\ (to_Q (235.2 / 0.32 / 1) < inject_Z (n + 1))%Q
    /\ int_to_float n = inr f
    /\ 735 = f * 1.
Proof.
  apply (quantity_is_floor_of_float_quotient 235.2 0.32 1 735).
  vm_compute. reflexivity.
Defined.

(* ================================================================== *)
(** ** A sell that fails *)

(** When an exit condition holds and the sell order fails with one of
    Binance's exceptions, no record is written and the variables are reset
    all the same. *)
Lemma failed_sell_resets (w : world) (s : locals) (r : row) (p : float) :
  position_open s = true -> snapshot w = inr r -> ticker_price w = inr p ->
  (p <=? stop_loss_of (entry_price s)) = true
  \/ (take_profit_of (entry_price s) <=? p) = true ->
  order_result w = inr None ->
  iteration w s
  = (inr tt, initial,
     [get_klines; get_symbol_ticker; create_order SIDE_SELL (quantity s)]).
Proof.
  intros Hs Hr Hp Hexit Ho.
  rewrite (iteration_open w s r Hs Hr), monitor_position_eq, Hp, Ho.
  destruct (p <=? stop_loss_of (entry_price s)); [reflexivity |].
  destruct Hexit as [H | ->]; [discriminate | reflexivity].
Qed.

(** What does hold on every run: each SELL record closes a position that a
    BUY record opened, so the SELL records, and the open position if there
    is one, never outnumber the BUY records. *)
Lemma iteration_sells_le_buys (w : world) (s : locals) :
  (count_sells (trades_of (calls_of w s))
   + (if position_open (locals_after w s) then 1 else 0)
   <= count_buys (trades_of (calls_of w s))
      + (if position_open s then 1 else 0))%nat.
Proof.
  unfold calls_of, locals_after. rewrite iteration_eq.
  destruct (snapshot w) as [e | r]; [cbn; lia |].
  destruct (position_open s) eqn:Hs.
  - rewrite monitor_position_eq.
    destruct (ticker_price w) as [e | p]; [cbn; rewrite Hs; lia |].
    destruct (p <=? _).
    + destruct (order_result w) as [e | [o |]]; cbn; rewrite ?Hs; lia.
    + destruct (_ <=? p); [| cbn; rewrite Hs; lia].
      destruct (order_result w) as [e | [o |]]; cbn; rewrite ?Hs; lia.
  - rewrite search_entry_eq.
    pose proof (sized_no_trade w (close r)) as [Ht _].
    destruct (entry_signal r); [| cbn; rewrite Hs; lia].
    cbv zeta.
    destruct (0 <? _).
    + destruct (order_result w) as [e | [o |]];
        cbn [fst snd trades_of]; rewrite trades_of_app, Ht;
        cbn; rewrite ?Hs; lia.
    + cbn [fst snd trades_of]. rewrite Ht. cbn. rewrite Hs. lia.
Qed.

Lemma count_app (a b : list trade) :
  count_buys (a ++ b) = (count_buys a + count_buys b)%nat
  /\ count_sells (a ++ b) = (count_sells a + count_sells b)%nat.
Proof.
  unfold count_buys, count_sells. rewrite !filter_app, !length_app. auto.
Qed.

Lemma run_from_sells_le_buys (ws : list world) (s : locals) :
  (count_sells (trades_of (snd (run_from s ws)))
   + (if position_open (fst (run_from s ws)) then 1 else 0)
   <= count_buys (trades_of (snd (run_from s ws)))
      + (if position_open s then 1 else 0))%nat.
Proof.
  revert s. induction ws as [| w ws IH]; intros s; cbn [run_from].
  - cbn. lia.
  - pose proof (iteration_sells_le_buys w s) as H1.
    unfold calls_of, locals_after in H1.
    destruct (iteration w s) as [[res s1] c1]. cbn [fst snd] in H1.
    specialize (IH s1). destruct (run_from s1 ws) as [s2 c2].
    cbn [fst snd] in *. rewrite trades_of_app.
    destruct (count_app (trades_of c1) (trades_of c2)) as [-> ->]. lia.
Qed.

(** X13. On every run the SELL records, and the open position if there is
    one, never outnumber the BUY records: a SELL record is only written
    for a position that a BUY record opened. *)
Lemma run_bot_sells_le_buys (ws : list world) :
  (count_sells (trades_of (snd (run_bot ws)))
   + (if position_open (fst (run_bot ws)) then 1 else 0)
   <= count_buys (trades_of (snd (run_bot ws))))%nat.
Proof.
  pose proof (run_from_sells_le_buys ws initial) as H. cbn in H.
  unfold run_bot. lia.
Qed.

(** C1, on the code: the position [held] (entry 4, quantity 25), which a
    filled buy opens from the initial state, meets a price of 3.9, under
    its stop loss 3.96, and Binance refuses the sell.  The iteration writes
    no SELL record and leaves the position closed, with entry price and
    quantity 0.0, where C1 has it stay open and unchanged. *)
Theorem refused_sell_closes_position :
  locals_after w_buy initial = held
  /\ iteration w_sell_refused held
     = (inr tt,
        {| position_open := false; entry_price := 0; quantity := 0 |},
        [get_klines; get_symbol_ticker; create_order SIDE_SELL 25]).
Proof. split; vm_compute; reflexivity. Qed.

(** C2, on the code: a filled buy, a refused sell and a filled buy.  After
    the second iteration the position is closed although the last record
    is a BUY; after the third there are two BUY records and no SELL, where
    C2 allows one BUY more than SELLs at most. *)
Theorem two_buys_and_no_sell :
  position_open (fst (run_bot [w_buy; w_sell_refused])) = false
  /\ map Side (trades_of (snd (run_bot [w_buy; w_sell_refused]))) = [SIDE_BUY]
  /\ position_open (fst (run_bot [w_buy; w_sell_refused; w_buy])) = true
  /\ count_buys (trades_of (snd (run_bot [w_buy; w_sell_refused; w_buy]))) = 2%nat
  /\ count_sells (trades_of (snd (run_bot [w_buy; w_sell_refused; w_buy]))) = 0%nat.
Proof. repeat split; vm_compute; reflexivity. Qed.

(* ================================================================== *)
(** * Further properties of the code *)

Local Open Scope list_scope.

(* ================================================================== *)
(** ** The balance *)

Lemma find_balance_skips (asset : string) (pre rest : list dict) :
  (forall c, In c pre -> other_asset asset c) ->
  find_balance (pre ++ rest) asset = find_balance rest asset.
Proof.
  induction pre as [| c pre IH]; intros H; [reflexivity |].
  cbn [app find_balance]. unfold Ebind.
  destruct (H c (or_introl eq_refl)) as (a & -> & ->).
  apply IH. intros c' Hc. apply H. right. exact Hc.
Qed.

(** X1. [get_balance] answers the free amount of the first entry of the
    account that names the asset, whatever follows it: entries of other
    assets before it are passed over, and a second entry of the same asset
    is never read. *)
Theorem get_balance_first_entry :
  forall (S : Type) (w : world) (asset : string) (s : S)
         (pre post : list dict) (b : dict) (x y : float),
    account w = inr (pre ++ b :: post) ->
    (forall c, In c pre -> other_asset asset c) ->
    getitem b "asset" = inr (JStr asset) ->
    getitem b "free" = inr (JNum x) ->
    getitem b "locked" = inr (JNum y) ->
    get_balance w asset s = (inr x, s, [get_account]).
Proof.
  intros S w asset s pre post b x y Ha Hpre Hb Hf Hl.
  rewrite get_balance_eq. unfold balance_of. rewrite Ha.
  rewrite (find_balance_skips asset pre (b :: post) Hpre).
  cbn [find_balance]. unfold Ebind. rewrite Hb. cbn [eq_str].
  rewrite String.eqb_refl, Hf, Hl. reflexivity.
Qed.

Lemma get_balance_first_entry_witness :
  get_balance (w_account usdt_twice) "USDT" tt = (inr 120, tt, [get_account]).
Proof.
  apply (get_balance_first_entry unit (w_account usdt_twice) "USDT" tt
           [[("asset", JStr "BTC"); ("free", JNum 1); ("locked", JNum 0)]]
           [[("asset", JStr "USDT"); ("free", JNum 7); ("locked", JNum 0)]]
           [("asset", JStr "USDT"); ("free", JNum 120); ("locked", JNum 0)]
           120 0).
  - reflexivity.
  - intros c [<- | []]. exists (JStr "BTC"). split; reflexivity.
  - reflexivity.
  - reflexivity.
  - reflexivity.
Defined.

(** X2. [get_balance] never raises and answers 0.0 for every failure: the
    account request raising, no entry naming the asset, an entry without
    an asset key met before the asset is found, and an entry of the asset
    whose free or locked amount is missing or not a number, so that a
    missing locked amount, read only to be logged, costs the free one. *)
Theorem get_balance_zero_on_failure :
  forall (S : Type) (w : world) (asset : string) (s : S),
    (forall e, account w = inl e ->
       get_balance w asset s = (inr 0, s, [get_account]))
    /\ (forall balances,
          account w = inr balances ->
          (forall c, In c balances -> other_asset asset c) ->
          get_balance w asset s = (inr 0, s, [get_account]))
    /\ (forall pre b post e,
          account w = inr (pre ++ b :: post) ->
          (forall c, In c pre -> other_asset asset c) ->
          getitem b "asset" = inl e ->
          get_balance w asset s = (inr 0, s, [get_account]))
    /\ (forall pre b post e,
          account w = inr (pre ++ b :: post) ->
          (forall c, In c pre -> other_asset asset c) ->
          getitem b "asset" = inr (JStr asset) ->
          number_at b "free" = inl e \/ number_at b "locked" = inl e ->
          get_balance w asset s = (inr 0, s, [get_account])).
Proof.
  intros S w asset s. repeat split.
  - intros e He. rewrite get_balance_eq. unfold balance_of. rewrite He.
    reflexivity.
  - intros balances Ha Hall. rewrite get_balance_eq. unfold balance_of.
    rewrite Ha. rewrite <- (app_nil_r balances).
    rewrite (find_balance_skips asset balances [] Hall). reflexivity.
  - intros pre b post e Ha Hpre Hb. rewrite get_balance_eq.
    unfold balance_of. rewrite Ha.
    rewrite (find_balance_skips asset pre (b :: post) Hpre).
    cbn [find_balance]. unfold Ebind. rewrite Hb. reflexivity.
  - intros pre b post e Ha Hpre Hb Hbad. rewrite get_balance_eq.
    unfold balance_of. rewrite Ha.
    rewrite (find_balance_skips asset pre (b :: post) Hpre).
    cbn [find_balance]. unfold Ebind. rewrite Hb. cbn [eq_str].
    rewrite String.eqb_refl. unfold number_at in Hbad.
    destruct (getitem b "free") as [e1 | f]; [reflexivity |].
    destruct (float_of f) as [e1 | x]; [reflexivity |].
    destruct Hbad as [Hbad | Hbad]; [discriminate |].
    destruct (getitem b "locked") as [e1 | l]; [reflexivity |].
    destruct (float_of l); [reflexivity | discriminate].
Qed.

Lemma get_balance_zero_on_failure_witness :
  get_balance w_no_account "USDT" tt = (inr 0, tt, [get_account])
  /\ get_balance (w_account usdt_unlocked) "USDT" tt = (inr 0, tt, [get_account]).
Proof.
  split.
  - destruct (get_balance_zero_on_failure unit w_no_account "USDT" tt)
      as (H & _).
    apply (H RequestException). reflexivity.
  - destruct (get_balance_zero_on_failure unit (w_account usdt_unlocked) "USDT" tt)
      as (_ & _ & _ & H).
    apply (H [] [("asset", JStr "USDT"); ("free", JNum 120)] [] KeyError).
    + reflexivity.
    + intros c [].
    + reflexivity.
    + right. reflexivity.
Defined.

(* ================================================================== *)
(** ** The sizer: what it asks, what it accepts, what it rejects *)

(** X3. [calculate_quantity] never raises and assigns nothing: it asks for
    the balance, asks for the symbol's filters exactly when the balance is
    above the reserve, and makes no other call, so it places no order and
    writes no record. *)
Theorem calculate_quantity_never_raises :
  forall (S : Type) (w : world) (price : float) (s : S),
    exists q,
      calculate_quantity w price s
      = (inr q, s,
         if balance_of w "USDT" <=? RESERVED_USDT then [get_account]
         else [get_account; get_symbol_info]).
Proof.
  intros S w price s. exists (fst (sized w price)).
  rewrite calculate_quantity_eq. f_equal.
  unfold sized, calculate_quantity, calculate_quantity_try. run_monad.
  rewrite !get_balance_eq.
  destruct (balance_of w "USDT" <=? RESERVED_USDT); [reflexivity |].
  destruct (symbol_info w) as [e | info]; [reflexivity |].
  destruct (filters_of info) as [e | filters]; [reflexivity |].
  destruct (scan_filters filters (None, None, None)) as [e | [[mq st] mn]];
    [reflexivity |].
  destruct st as [st |]; [| reflexivity].
  destruct (adjust_quantity _ st) as [e | q]; [reflexivity |].
  destruct (lt_opt q mq) as [e | [|]]; try reflexivity.
  destruct (lt_opt _ mn) as [e | [|]]; reflexivity.
Qed.

(** X4. Whatever [calculate_quantity] returns is 0.0 unless every check
    passed: the balance is above the reserve, the filters gave a minimum
    quantity, a step and a minimum notional, the floored quantity is not
    below the minimum quantity and its value at the price is not below
    the minimum notional; the value returned is then the floored quantity
    rounded to six decimals. *)
Theorem calculate_quantity_accepts_checked :
  forall (S : Type) (w : world) (price q : float) (s : S),
    fst (fst (calculate_quantity w price s)) = inr q ->
    q = 0
    \/ exists filters min_qty step_size min_notional floored,
         (balance_of w "USDT" <=? RESERVED_USDT) = false
         /\ symbol_info w = inr (Some filters)
         /\ scan_filters filters (None, None, None)
            = inr (Some min_qty, Some step_size, Some min_notional)
         /\ adjust_quantity ((balance_of w "USDT" - RESERVED_USDT) / price)
              step_size = inr floored
         /\ (floored <? min_qty) = false
         /\ (floored * price <? min_notional) = false
         /\ q = round floored 6.
Proof.
  intros S w price q s. rewrite calculate_quantity_eq. cbn [fst].
  intros [= <-]. apply sized_inv.
Qed.

Lemma calculate_quantity_accepts_checked_witness :
  1250 = 0
  \/ exists filters min_qty step_size min_notional floored,
       (balance_of w_cheap "USDT" <=? RESERVED_USDT) = false
       /\ symbol_info w_cheap = inr (Some filters)
       /\ scan_filters filters (None, None, None)
          = inr (Some min_qty, Some step_size, Some min_notional)
       /\ adjust_quantity ((balance_of w_cheap "USDT" - RESERVED_USDT) / 0.08)
            step_size = inr floored
       /\ (floored <? min_qty) = false
       /\ (floored * 0.08 <? min_notional) = false
       /\ 1250 = round floored 6.
Proof.
  apply (calculate_quantity_accepts_checked locals w_cheap 0.08 1250 initial).
  vm_compute. reflexivity.
Defined.

(** Dividing by zero or by NaN gives an infinity or NaN, and so does
    dividing those again; [math.floor] raises on them. *)
Lemma div_not_finite (x y : float) :
  (y =? 0) = true \/ is_nan y = true ->
  Prim2SF (x / y) = S754_nan \/ exists sg, Prim2SF (x / y) = S754_infinity sg.
Proof.
  intros Hy. rewrite div_spec.
  assert (H : (exists sg, Prim2SF y = S754_zero sg) \/ Prim2SF y = S754_nan).
  { destruct Hy as [Hy | Hy].
    - left. apply zero_cases, Hy.
    - right. unfold is_nan in Hy. apply negb_true_iff in Hy.
      rewrite FloatAxioms.eqb_spec in Hy.
      destruct (Prim2SF y) as [sg | sg | | sg m e]; cbn in Hy;
        try discriminate; try reflexivity.
      + destruct sg; discriminate.
      + destruct sg; cbn in Hy; rewrite Z.compare_refl, Pos.compare_cont_refl in Hy;
          discriminate. }
  destruct H as [[sg ->] | ->];
    destruct (Prim2SF x) as [sx | sx | | sx m e]; cbn; eauto.
Qed.

Lemma div_of_not_finite (x y : float) :
  Prim2SF x = S754_nan \/ (exists sg, Prim2SF x = S754_infinity sg) ->
  Prim2SF (x / y) = S754_nan \/ exists sg, Prim2SF (x / y) = S754_infinity sg.
Proof.
  intros Hx. rewrite div_spec.
  destruct Hx as [-> | [sg ->]];
    destruct (Prim2SF y) as [sy | sy | | sy m e]; cbn; eauto.
Qed.

Lemma math_floor_not_finite (x : float) :
  Prim2SF x = S754_nan \/ (exists sg, Prim2SF x = S754_infinity sg) ->
  exists e, math_floor x = inl e.
Proof.
  unfold math_floor. intros [-> | [sg ->]]; eauto.
Qed.

Lemma adjust_quantity_raises (x price step_size : float) :
  ((price =? 0) = true \/ is_nan price = true)
  \/ ((step_size =? 0) = true \/ is_nan step_size = true) ->
  exists e, adjust_quantity (x / price) step_size = inl e.
Proof.
  intros H. unfold adjust_quantity, Ebind.
  destruct (math_floor_not_finite (x / price / step_size)) as [e ->];
    [| eauto].
  destruct H as [H | H].
  - apply div_of_not_finite, div_not_finite, H.
  - apply div_not_finite, H.
Qed.

(** X5. A price that is zero or NaN, and a step that is zero or NaN, never
    give a quantity: the division gives an infinity or NaN, [math.floor]
    raises on it, and the sizer returns 0.0. *)
Theorem degenerate_price_or_step_rejected :
  forall (S : Type) (w : world) (price : float) (s : S),
    ((price =? 0) = true \/ is_nan price = true ->
     fst (fst (calculate_quantity w price s)) = inr 0)
    /\ (forall filters min_qty step_size min_notional,
          symbol_info w = inr (Some filters) ->
          scan_filters filters (None, None, None)
            = inr (min_qty, Some step_size, min_notional) ->
          (step_size =? 0) = true \/ is_nan step_size = true ->
          fst (fst (calculate_quantity w price s)) = inr 0).
Proof.
  intros S w price s. rewrite calculate_quantity_eq. cbn [fst]. split.
  - intros Hp. f_equal. destruct (sized_inv w price) as [H | H]; [exact H |].
    destruct H as (fs & mq & st & mn & q & _ & _ & _ & Ha & _).
    destruct (adjust_quantity_raises (balance_of w "USDT" - RESERVED_USDT)
                price st (or_introl Hp)) as [e He].
    rewrite He in Ha. discriminate.
  - intros filters mq0 st0 mn0 Hi Hs Hst. f_equal.
    destruct (sized_inv w price) as [H | H]; [exact H |].
    destruct H as (fs & mq & st & mn & q & _ & Hi' & Hs' & Ha & _).
    rewrite Hi in Hi'. injection Hi' as <-. rewrite Hs in Hs'.
    injection Hs' as -> -> ->.
    destruct (adjust_quantity_raises (balance_of w "USDT" - RESERVED_USDT)
                price st (or_intror Hst)) as [e He].
    rewrite He in Ha. discriminate.
Qed.

Lemma degenerate_price_or_step_rejected_witness :
  fst (fst (calculate_quantity w_buy 0 initial)) = inr 0
  /\ fst (fst (calculate_quantity
                 (answering 120 [lot_size 1 0; notional 5] 4 (inr filled))
                 4 initial)) = inr 0.
Proof.
  split.
  - apply (proj1 (degenerate_price_or_step_rejected locals w_buy 0 initial)).
    left. reflexivity.
  - apply (proj2 (degenerate_price_or_step_rejected locals
                    (answering 120 [lot_size 1 0; notional 5] 4 (inr filled))
                    4 initial)
             [lot_size 1 0; notional 5] (Some 1) 0 (Some 5)).
    + reflexivity.
    + reflexivity.
    + left. reflexivity.
Defined.

(* ================================================================== *)
(** ** The filters of the symbol *)

Lemma scan_filters_app (a b : list dict)
    (acc : option float * option float * option float) :
  scan_filters (a ++ b) acc
  = match scan_filters a acc with
    | inl e => inl e
    | inr acc' => scan_filters b acc'
    end.
Proof.
  revert acc. induction a as [| f a IH]; intros [[mq st] mn]; [reflexivity |].
  cbn [app scan_filters]. unfold Ebind.
  destruct (getitem f "filterType") as [e | t]; [reflexivity |].
  destruct (eq_str t "LOT_SIZE").
  - destruct (getitem f "minQty") as [e | x]; [reflexivity |].
    destruct (float_of x); [reflexivity |].
    destruct (getitem f "stepSize") as [e | y]; [reflexivity |].
    destruct (float_of y); [reflexivity |].
    destruct (eq_str t "NOTIONAL"); [| apply IH].
    destruct (getitem f "minNotional") as [e | z]; [reflexivity |].
    destruct (float_of z); [reflexivity | apply IH].
  - destruct (eq_str t "NOTIONAL"); [| apply IH].
    destruct (getitem f "minNotional") as [e | z]; [reflexivity |].
    destruct (float_of z); [reflexivity | apply IH].
Qed.

Lemma scan_filters_unread (f : dict)
    (acc : option float * option float * option float) :
  unread f -> scan_filters [f] acc = inr acc.
Proof.
  intros (t & Ht & Hl & Hn). destruct acc as [[mq st] mn].
  cbn [scan_filters]. unfold Ebind. rewrite Ht, Hl, Hn. reflexivity.
Qed.

Lemma scan_filters_unreadable (f : dict)
    (acc : option float * option float * option float) :
  unreadable f -> exists e, scan_filters [f] acc = inl e.
Proof.
  unfold unreadable, number_at. destruct acc as [[mq st] mn].
  cbn [scan_filters]. unfold Ebind.
  destruct (getitem f "filterType") as [e | t]; [eauto |].
  intros [[Hl Hbad] | [Hn Hbad]].
  - rewrite Hl.
    destruct (getitem f "minQty") as [e | x]; [eauto |].
    destruct (float_of x) as [e | x']; [eauto |].
    destruct (getitem f "stepSize") as [e | y]; [eauto |].
    destruct (float_of y) as [e | y']; [eauto |].
    destruct Hbad as [[e H] | [e H]]; discriminate.
  - rewrite Hn.
    destruct (eq_str t "LOT_SIZE").
    + destruct (getitem f "minQty") as [e | x]; [eauto |].
      destruct (float_of x) as [e | x']; [eauto |].
      destruct (getitem f "stepSize") as [e | y]; [eauto |].
      destruct (float_of y) as [e | y']; [eauto |].
      destruct (getitem f "minNotional") as [e | z]; [eauto |].
      destruct (float_of z) as [e | z']; [eauto |].
      destruct Hbad as [e H]. discriminate.
    + destruct (getitem f "minNotional") as [e | z]; [eauto |].
      destruct (float_of z) as [e | z']; [eauto |].
      destruct Hbad as [e H]. discriminate.
Qed.

(** X6. The sizer returns 0.0 when the symbol information cannot be used:
    the request raises, the exchange does not know the symbol, or one of
    the filters cannot be read (no filterType, a LOT_SIZE filter without a
    numeric minQty or stepSize, a NOTIONAL filter without a numeric
    minNotional), even when the other filters are complete. *)
Theorem unusable_symbol_info_rejected :
  forall (S : Type) (w : world) (price : float) (s : S),
    ((exists e, symbol_info w = inl e) \/ symbol_info w = inr None ->
     fst (fst (calculate_quantity w price s)) = inr 0)
    /\ (forall before f after,
          symbol_info w = inr (Some (before ++ f :: after)) ->
          unreadable f ->
          fst (fst (calculate_quantity w price s)) = inr 0).
Proof.
  intros S w price s. rewrite calculate_quantity_eq. cbn [fst]. split.
  - intros H. f_equal. destruct (sized_inv w price) as [Hz | Hz]; [exact Hz |].
    destruct Hz as (fs & mq & st & mn & q & _ & Hi & _).
    destruct H as [[e H] | H]; rewrite H in Hi; discriminate.
  - intros before f after Hi Hbad. f_equal.
    destruct (sized_inv w price) as [Hz | Hz]; [exact Hz |].
    destruct Hz as (fs & mq & st & mn & q & _ & Hi' & Hs & _).
    rewrite Hi in Hi'. injection Hi' as <-.
    change (f :: after) with ([f] ++ after) in Hs.
    rewrite !scan_filters_app in Hs.
    destruct (scan_filters before (None, None, None)) as [e | acc];
      [discriminate |].
    destruct (scan_filters_unreadable f acc Hbad) as [e He].
    rewrite scan_filters_app, He in Hs. discriminate.
Qed.

Lemma unusable_symbol_info_rejected_witness :
  fst (fst (calculate_quantity
              (answering 120 [lot_size 1 1; [("filterType", JStr "LOT_SIZE")];
                              notional 5] 4 (inr filled)) 4 initial)) = inr 0.
Proof.
  apply (proj2 (unusable_symbol_info_rejected locals
                  (answering 120 [lot_size 1 1; [("filterType", JStr "LOT_SIZE")];
                                  notional 5] 4 (inr filled)) 4 initial)
           [lot_size 1 1] [("filterType", JStr "LOT_SIZE")] [notional 5]).
  - reflexivity.
  - unfold unreadable. cbn. left. split; [reflexivity |]. left. exists KeyError. reflexivity.
Defined.

(** X7. Filters of any other type are passed over wherever they stand:
    taking one out of the list changes nothing of what the loop of the
    sizer reads. *)
Theorem other_filters_are_ignored :
  forall (before after : list dict) (f : dict)
         (acc : option float * option float * option float),
    unread f ->
    scan_filters (before ++ f :: after) acc = scan_filters (before ++ after) acc.
Proof.
  intros before after f acc Hf.
  change (f :: after) with ([f] ++ after).
  rewrite !scan_filters_app.
  destruct (scan_filters before acc) as [e | acc']; [reflexivity |].
  rewrite scan_filters_app, (scan_filters_unread f acc' Hf). reflexivity.
Qed.

Lemma other_filters_are_ignored_witness :
  scan_filters ([lot_size 1 1] ++ price_filter :: [notional 5]) (None, None, None)
  = scan_filters ([lot_size 1 1] ++ [notional 5]) (None, None, None).
Proof.
  apply (other_filters_are_ignored [lot_size 1 1] [notional 5] price_filter).
  exists (JStr "PRICE_FILTER"). repeat split.
Defined.

(** X8. When the filters hold more than one LOT_SIZE filter the last one
    decides: after a list that was read, a LOT_SIZE filter puts its own
    minimum quantity and step in place of what was found before and
    leaves the minimum notional as it was. *)
Theorem last_lot_size_decides :
  forall (filters : list dict) (f : dict) (x y : float)
         (acc : option float * option float * option float)
         (min_qty step_size min_notional : option float),
    scan_filters filters acc = inr (min_qty, step_size, min_notional) ->
    getitem f "filterType" = inr (JStr "LOT_SIZE") ->
    getitem f "minQty" = inr (JNum x) ->
    getitem f "stepSize" = inr (JNum y) ->
    scan_filters (filters ++ [f]) acc = inr (Some x, Some y, min_notional).
Proof.
  intros filters f x y acc mq st mn Hs Ht Hx Hy.
  rewrite scan_filters_app, Hs. cbn [scan_filters]. unfold Ebind.
  rewrite Ht, Hx, Hy. reflexivity.
Qed.

Lemma last_lot_size_decides_witness :
  scan_filters ([lot_size 1 1; notional 5] ++ [lot_size 10 5]) (None, None, None)
  = inr (Some 10, Some 5, Some 5).
Proof.
  apply (last_lot_size_decides [lot_size 1 1; notional 5] (lot_size 10 5) 10 5
           (None, None, None) (Some 1) (Some 1) (Some 5));
    reflexivity.
Defined.

(* ================================================================== *)
(** ** One iteration *)

(** X9. When the entry condition holds and no position opens, because the
    sized quantity is not positive or because the buy order fails (with
    one of Binance's exceptions or any other), the position stays closed
    and the entry price is left alone, yet the variable [quantity] keeps
    the sized quantity until a later iteration assigns it again; no record
    is written. *)
Theorem failed_entry_keeps_sized_quantity :
  forall (w : world) (s : locals) (r : row),
    position_open s = false -> snapshot w = inr r ->
    (ema_slow r <? ema_fast r) && ((30 <? rsi r) && (rsi r <? 70)) = true ->
    (0 <? fst (sized w (close r))) = false \/ (exists e, order w = inl e) ->
    locals_after w s
    = {| position_open := false; entry_price := entry_price s;
         quantity := fst (sized w (close r)) |}
    /\ trades_of (calls_of w s) = []
    /\ ((0 <? fst (sized w (close r))) = true ->
        orders_of (calls_of w s) = [(SIDE_BUY, fst (sized w (close r)))]).
Proof.
  intros w s r Hs Hr Hsig Hfail. unfold locals_after, calls_of.
  rewrite iteration_eq, Hr, Hs, search_entry_eq.
  change (entry_signal r) with
    ((ema_slow r <? ema_fast r) && ((30 <? rsi r) && (rsi r <? 70))).
  rewrite Hsig. cbv zeta.
  pose proof (sized_no_trade w (close r)) as [Ht Ho].
  unfold with_quantity. rewrite Hs.
  destruct (0 <? fst (sized w (close r))) eqn:Hq.
  - destruct Hfail as [Hfail | [e He]]; [discriminate |].
    unfold order_result. rewrite He.
    destruct e; cbn [fst snd trades_of orders_of];
      rewrite trades_of_app, orders_of_app, Ht, Ho; repeat split.
  - cbn [fst snd trades_of]. rewrite Ht. repeat split. discriminate.
Qed.

Lemma failed_entry_keeps_sized_quantity_witness :
  locals_after (w_order_lost 4) initial
  = {| position_open := false; entry_price := 0; quantity := 25 |}.
Proof.
  destruct (failed_entry_keeps_sized_quantity (w_order_lost 4) initial
              {| close := 4; ema_fast := 3.4069569896448009;
                 ema_slow := 3.250716935504518; rsi := 50 |})
    as (H & _).
  - reflexivity.
  - vm_compute. reflexivity.
  - reflexivity.
  - right. exists RequestException. reflexivity.
  - exact H.
Defined.

(** X10. An open position survives what is not an answer of the exchange
    to the sell: when the ticker cannot be read nothing is sold, and when
    an exit condition holds but the order raises anything other than
    Binance's two exceptions the order was sent once and that is all.  In
    both cases nothing is assigned and no record is written, so the exit is
    tried again on the next iteration. *)
Theorem open_position_survives_failures :
  forall (w : world) (s : locals) (r : row),
    position_open s = true -> snapshot w = inr r ->
    (forall e, ticker_price w = inl e ->
       iteration w s = (inr tt, s, [get_klines; get_symbol_ticker]))
    /\ (forall p e,
          ticker_price w = inr p ->
          order w = inl e ->
          e <> BinanceAPIException -> e <> BinanceOrderException ->
          (p <=? entry_price s * (1 - STOP_LOSS_PERCENT)) = true
          \/ (entry_price s * (1 + TAKE_PROFIT_PERCENT) <=? p) = true ->
          iteration w s
          = (inr tt, s,
             [get_klines; get_symbol_ticker;
              create_order SIDE_SELL (quantity s)])).
Proof.
  intros w s r Hs Hr. split.
  - intros e He. rewrite (iteration_open w s r Hs Hr), monitor_position_eq, He.
    reflexivity.
  - intros p e Hp Ho H1 H2 Hexit.
    rewrite (iteration_open w s r Hs Hr), monitor_position_eq, Hp.
    assert (Hres : order_result w = inl e).
    { unfold order_result. rewrite Ho.
      destruct e; try reflexivity; [now elim H1 | now elim H2]. }
    rewrite Hres. unfold stop_loss_of, take_profit_of.
    destruct (p <=? _); [reflexivity |].
    destruct Hexit as [H | ->]; [discriminate | reflexivity].
Qed.

Lemma open_position_survives_failures_witness :
  iteration w_no_ticker held = (inr tt, held, [get_klines; get_symbol_ticker])
  /\ iteration (w_order_lost 3.9) held
     = (inr tt, held,
        [get_klines; get_symbol_ticker; create_order SIDE_SELL 25]).
Proof.
  split.
  - destruct (open_position_survives_failures w_no_ticker held
                {| close := 4; ema_fast := 3.4069569896448009;
                   ema_slow := 3.250716935504518; rsi := 50 |})
      as (H & _).
    + reflexivity.
    + vm_compute. reflexivity.
    + apply (H RequestException). reflexivity.
  - destruct (open_position_survives_failures (w_order_lost 3.9) held
                {| close := 4; ema_fast := 3.4069569896448009;
                   ema_slow := 3.250716935504518; rsi := 50 |})
      as (_ & H).
    + reflexivity.
    + vm_compute. reflexivity.
    + apply (H 3.9 RequestException); try reflexivity; try discriminate.
      left. reflexivity.
Defined.

(** X11. When the klines cannot be fetched, or come back empty, the
    iteration ends there: nothing is assigned and no other call is made,
    so that an open position is not compared with its stop loss and take
    profit on that iteration. *)
Theorem no_klines_no_action :
  forall (w : world) (s : locals),
    (exists e, klines w = inl e) \/ klines w = inr [] ->
    iteration w s = (inr tt, s, [get_klines]).
Proof.
  intros w s H. rewrite iteration_eq. unfold snapshot, Ebind.
  destruct H as [[e ->] | ->]; reflexivity.
Qed.

Lemma no_klines_no_action_witness :
  iteration (with_klines w_sell_refused (inl RequestException)) held
  = (inr tt, held, [get_klines]).
Proof.
  apply (no_klines_no_action
           (with_klines w_sell_refused (inl RequestException)) held).
  left. exists RequestException. reflexivity.
Defined.

(** X12. An iteration never raises.  It asks for the klines first, places
    at most one order, a BUY when no position is open and a SELL of the
    position's quantity when one is, and writes at most one record, which
    then has the side and the quantity of the order placed in the same
    iteration. *)
Theorem iteration_places_one_order_at_most :
  forall (w : world) (s : locals),
    fst (fst (iteration w s)) = inr tt
    /\ hd_error (calls_of w s) = Some get_klines
    /\ (orders_of (calls_of w s) = []
        \/ exists q, orders_of (calls_of w s) = [(side_for s, q)]
                     /\ (position_open s = true -> q = quantity s))
    /\ (trades_of (calls_of w s) = []
        \/ exists t, trades_of (calls_of w s) = [t]
                     /\ Side t = side_for s
                     /\ orders_of (calls_of w s) = [(Side t, Quantity t)]).
Proof.
  intros w s. unfold calls_of, side_for. rewrite iteration_eq.
  destruct (snapshot w) as [e | r]; [cbn; auto |].
  destruct (position_open s) eqn:Hs.
  - rewrite monitor_position_eq. unfold exit_outcome.
    destruct (ticker_price w) as [e | p]; [cbn; auto |].
    destruct (p <=? _).
    + destruct (order_result w) as [e | [o |]]; cbn;
        repeat split; eauto 7.
    + destruct (_ <=? p); [| cbn; auto].
      destruct (order_result w) as [e | [o |]]; cbn;
        repeat split; eauto 7.
  - rewrite search_entry_eq.
    pose proof (sized_no_trade w (close r)) as [Ht Ho].
    destruct (entry_signal r); [| cbn; auto].
    cbv zeta. destruct (0 <? _).
    + destruct (order_result w) as [e | [o |]];
        cbn [fst snd trades_of orders_of hd_error];
        rewrite trades_of_app, orders_of_app, Ht, Ho; cbn;
        repeat split; try (right; eexists; split; [reflexivity |]);
        try (left; reflexivity); try (intros; discriminate);
        try (split; reflexivity).
    + cbn [fst snd trades_of orders_of hd_error]. rewrite Ht, Ho. auto.
Qed.

(** X19. While a position is open the indicators decide nothing: with any
    other klines, as long as they give a last row, the iteration assigns
    and calls exactly the same. *)
Theorem exit_ignores_indicators :
  forall (w : world) (s : locals) (k : E (list float)) (r r' : row),
    position_open s = true ->
    snapshot w = inr r -> snapshot (with_klines w k) = inr r' ->
    iteration (with_klines w k) s = iteration w s.
Proof.
  intros w s k r r' Hs Hr Hr'.
  rewrite (iteration_open w s r Hs Hr).
  rewrite (iteration_open (with_klines w k) s r' Hs Hr').
  rewrite !monitor_position_eq. reflexivity.
Qed.

Lemma exit_ignores_indicators_witness :
  iteration (with_klines w_sell_refused (inr rising15)) held
  = iteration w_sell_refused held.
Proof.
  apply (exit_ignores_indicators w_sell_refused held (inr rising15)
           {| close := 4; ema_fast := 3.4069569896448009;
              ema_slow := 3.250716935504518; rsi := 50 |}
           {| close := 15; ema_fast := 11.175921860444163;
              ema_slow := 7.6333125430608; rsi := 100 |}).
  - reflexivity.
  - vm_compute. reflexivity.
  - vm_compute. reflexivity.
Defined.

(* ================================================================== *)
(** ** Every run *)

Lemma iteration_consistent (w : world) (s : locals) :
  consistent s -> consistent (locals_after w s).
Proof.
  intros Hc. unfold locals_after. rewrite iteration_eq.
  destruct (snapshot w) as [e | r]; [exact Hc |].
  assert (Hi : consistent initial) by (split; [discriminate | reflexivity]).
  destruct (position_open s) eqn:Hs.
  - rewrite monitor_position_eq. unfold exit_outcome.
    destruct (ticker_price w) as [e | p]; [exact Hc |].
    destruct (p <=? _).
    + destruct (order_result w) as [e | [o |]]; cbn [fst snd];
        first [exact Hi | exact Hc].
    + destruct (_ <=? p); [| exact Hc].
      destruct (order_result w) as [e | [o |]]; cbn [fst snd];
        first [exact Hi | exact Hc].
  - rewrite search_entry_eq.
    destruct (entry_signal r); [| exact Hc].
    cbv zeta.
    assert (Hw : forall q, consistent (with_quantity s q)).
    { intros q. unfold with_quantity. split; cbn; rewrite ?Hs.
      - discriminate.
      - intros _. apply (proj2 Hc), Hs. }
    destruct (0 <? fst (sized w (close r))) eqn:Hq; [| apply Hw].
    destruct (order_result w) as [e | [o |]]; cbn [fst snd]; try apply Hw.
    split; cbn; [intros _; exact Hq | discriminate].
Qed.

Lemma run_from_cons (w : world) (ws : list world) (s : locals) :
  run_from s (w :: ws)
  = (fst (run_from (locals_after w s) ws),
     calls_of w s ++ snd (run_from (locals_after w s) ws)).
Proof.
  cbn [run_from]. unfold locals_after, calls_of.
  destruct (iteration w s) as [[res s1] c1]. cbn [fst snd].
  destruct (run_from s1 ws) as [s2 c2]. reflexivity.
Qed.

(** X14. Between any two iterations of any run the variables fit
    together: an open position has a positive quantity, and while no
    position is open the entry price is 0.0. *)
Theorem run_bot_variables_consistent :
  forall (ws : list world), consistent (fst (run_bot ws)).
Proof.
  intros ws. unfold run_bot.
  assert (H : consistent initial) by (split; [discriminate | reflexivity]).
  revert H. generalize initial.
  induction ws as [| w ws IH]; intros s Hs; [exact Hs |].
  rewrite run_from_cons. cbn [fst]. apply IH, iteration_consistent, Hs.
Qed.

Lemma iteration_records_well_formed (w : world) (s : locals) (t : trade) :
  consistent s -> In t (trades_of (calls_of w s)) -> well_formed t.
Proof.
  intros [Hopen _]. unfold calls_of. rewrite iteration_eq.
  destruct (snapshot w) as [e | r]; [intros [] |].
  destruct (position_open s) eqn:Hs.
  - specialize (Hopen eq_refl).
    rewrite monitor_position_eq. unfold exit_outcome.
    destruct (ticker_price w) as [e | p]; [intros [] |].
    destruct (p <=? stop_loss_of (entry_price s)) eqn:Hsl.
    + destruct (order_result w) as [e | [o |]]; cbn; try tauto.
      intros [<- | []]. unfold well_formed, sell_record. cbn.
      repeat split; try assumption.
      exists p. split; [reflexivity |]. left. split; [reflexivity | exact Hsl].
    + destruct (take_profit_of (entry_price s) <=? p) eqn:Htp; [| intros []].
      destruct (order_result w) as [e | [o |]]; cbn; try tauto.
      intros [<- | []]. unfold well_formed, sell_record. cbn.
      repeat split; try assumption.
      exists p. split; [reflexivity |]. right. repeat split; assumption.
  - rewrite search_entry_eq.
    pose proof (sized_no_trade w (close r)) as [Ht _].
    destruct (entry_signal r); [| intros []].
    cbv zeta.
    destruct (0 <? fst (sized w (close r))) eqn:Hq.
    + destruct (order_result w) as [e | [o |]];
        cbn [fst snd trades_of]; rewrite trades_of_app, Ht; cbn; try tauto.
      intros [<- | []]. unfold well_formed, buy_record. cbn.
      repeat split. exact Hq.
    + cbn [fst snd trades_of]. rewrite Ht. intros [].
Qed.

(** X15. Every record a run writes is complete and coherent: it names the
    symbol, its quantity is positive, its stop loss and take profit are the
    entry price less 1% and plus 2%; a BUY record has no exit price and no
    result; a SELL record has an exit price and the result that this price
    earns, "Stop Loss" at or under the stop loss, "Take Profit" above the
    stop loss and at or over the take profit. *)
Theorem run_bot_records_well_formed :
  forall (ws : list world) (t : trade),
    In t (trades_of (snd (run_bot ws))) -> well_formed t.
Proof.
  intros ws t. unfold run_bot.
  assert (H : consistent initial) by (split; [discriminate | reflexivity]).
  revert H. generalize initial.
  induction ws as [| w ws IH]; intros s Hs; [intros [] |].
  rewrite run_from_cons. cbn [snd]. rewrite trades_of_app.
  intros Hin. apply in_app_or in Hin. destruct Hin as [Hin | Hin].
  - apply (iteration_records_well_formed w s t Hs Hin).
  - apply (IH (locals_after w s) (iteration_consistent w s Hs) Hin).
Qed.

Lemma run_bot_records_well_formed_witness :
  well_formed (buy_record w_buy 4 25).
Proof.
  apply (run_bot_records_well_formed [w_buy]).
  vm_compute. left. reflexivity.
Defined.

(* ================================================================== *)
(** ** The indicators *)

Lemma rolling_mean_length (window min_periods : nat) (s : Pandas.series) :
  List.length (Pandas.rolling_mean window min_periods s) = List.length s.
Proof.
  unfold Pandas.rolling_mean. cbv zeta. now rewrite length_map, length_seq.
Qed.

Lemma calculate_rsi_length (s : Pandas.series) (period : nat) :
  List.length (calculate_rsi s period) = List.length s.
Proof.
  rewrite calculate_rsi_eq, length_map, length_combine.
  unfold avg_gain_of, avg_loss_of.
  rewrite !rolling_mean_length, gain_of_length, loss_of_length. lia.
Qed.

Lemma rolling_mean_warm_up (period i : nat) (s : Pandas.series) :
  (i + 1 < period)%nat -> (i < List.length s)%nat ->
  nth_error (Pandas.rolling_mean period period s) i = Some nan.
Proof.
  intros Hi Hlen. unfold Pandas.rolling_mean. cbv zeta.
  rewrite nth_error_map, nth_error_seq.
  destruct (Nat.ltb_spec i (List.length s)) as [_ | H]; [| lia].
  cbn [option_map Nat.add]. f_equal. apply calc_mean_warm_up, Hi.
Qed.

(** X16. The RSI has one value for each close, and the first period - 1 of
    them are NaN whatever the closes are: the bot can meet an RSI only
    from the close number period on. *)
Theorem calculate_rsi_warm_up :
  forall (s : Pandas.series) (period : nat),
    List.length (calculate_rsi s period) = List.length s
    /\ (forall i, (i + 1 < period)%nat -> (i < List.length s)%nat ->
          nth_error (calculate_rsi s period) i = Some nan).
Proof.
  intros s period. split; [apply calculate_rsi_length |].
  intros i Hi Hlen.
  rewrite (calculate_rsi_nth s period i nan nan).
  - reflexivity.
  - apply rolling_mean_warm_up; [exact Hi | now rewrite gain_of_length].
  - apply rolling_mean_warm_up; [exact Hi | now rewrite loss_of_length].
Qed.

Lemma ewm_from_length (alpha : float) (st : float * float) (s : Pandas.series) :
  List.length (Pandas.ewm_from alpha st s) = List.length s.
Proof.
  revert st. induction s as [| x s IH]; intros st; cbn; [reflexivity |].
  now rewrite IH.
Qed.

Lemma ewm_mean_length (span : nat) (s : Pandas.series) :
  List.length (Pandas.ewm_mean span s) = List.length s.
Proof.
  unfold Pandas.ewm_mean. destruct s as [| x s]; cbn; [reflexivity |].
  now rewrite ewm_from_length.
Qed.

Lemma ewm_step_same (alpha c old_wt : float) :
  fst (Pandas.ewm_step alpha (c, old_wt) c) = c.
Proof.
  unfold Pandas.ewm_step. destruct (c =? c); reflexivity.
Qed.

Lemma ewm_from_constant (alpha c : float) (n : nat) (st : float * float) :
  fst st = c -> Pandas.ewm_from alpha st (repeat c n) = repeat c n.
Proof.
  revert st. induction n as [| n IH]; intros [y old_wt] Hst;
    cbn [repeat Pandas.ewm_from]; [reflexivity |].
  cbn [fst] in Hst. subst y. rewrite ewm_step_same. f_equal.
  apply IH, ewm_step_same.
Qed.

Lemma ewm_mean_constant (span : nat) (c : float) (n : nat) :
  Pandas.ewm_mean span (repeat c n) = repeat c n.
Proof.
  destruct n as [| n]; [reflexivity |].
  cbn [repeat]. unfold Pandas.ewm_mean. f_equal.
  apply ewm_from_constant. reflexivity.
Qed.


Lemma ltb_irrefl (x : float) : (x <? x) = false.
Proof.
  rewrite FloatAxioms.ltb_spec. unfold SFltb.
  destruct (Prim2SF x) as [sg | sg | | sg m e]; cbn; try reflexivity.
  - destruct sg; reflexivity.
  - destruct sg; rewrite Z.compare_refl, Pos.compare_cont_refl; reflexivity.
Qed.

Lemma zip_columns_emas (c f s r : Pandas.series) (x : row) :
  iloc_last (zip_columns c f s r) = inr x ->
  In (ema_fast x) f /\ In (ema_slow x) s.
Proof.
  revert f s r. induction c as [| c0 c IH]; intros [| f0 f] [| s0 s] [| r0 r];
    cbn [zip_columns iloc_last]; try discriminate.
  destruct (zip_columns c f s r) as [| y ys] eqn:Hz.
  - intros [= <-]. split; left; reflexivity.
  - intros H. destruct (IH f s r) as [H1 H2]; [rewrite Hz; exact H |].
    split; right; assumption.
Qed.

(** X18. On closes that are all the same the two averages are equal, so
    the entry condition fails: a searching iteration stops after the
    klines, whatever the RSI. *)
Theorem flat_closes_no_entry :
  forall (w : world) (s : locals) (c : float) (n : nat),
    klines w = inr (repeat c n) -> position_open s = false ->
    iteration w s = (inr tt, s, [get_klines]).
Proof.
  intros w s c n Hk Hs.
  destruct (snapshot w) as [e | r] eqn:Hr.
  - rewrite iteration_eq, Hr. reflexivity.
  - apply (iteration_no_signal w s r Hs Hr).
    unfold snapshot, Ebind in Hr. rewrite Hk in Hr.
    apply zip_columns_emas in Hr. destruct Hr as [Hf Hsl].
    rewrite ewm_mean_constant in Hf, Hsl.
    apply repeat_spec in Hf. apply repeat_spec in Hsl.
    unfold entry_signal. rewrite Hf, Hsl, ltb_irrefl. reflexivity.
Qed.

Lemma flat_closes_no_entry_witness :
  iteration (with_klines w_buy (inr (repeat 5 20))) initial
  = (inr tt, initial, [get_klines]).
Proof.
  apply (flat_closes_no_entry (with_klines w_buy (inr (repeat 5 20)))
           initial 5 20); reflexivity.
Defined.

Lemma zip_columns_last (pre : Pandas.series) (x : float) :
  forall (f s r : Pandas.series),
    List.length f = List.length (pre ++ [x]) ->
    List.length s = List.length (pre ++ [x]) ->
    List.length r = List.length (pre ++ [x]) ->
    exists y, iloc_last (zip_columns (pre ++ [x]) f s r) = inr y /\ close y = x.
Proof.
  induction pre as [| p pre IH]; intros [| f0 f] [| s0 s] [| r0 r];
    cbn [app List.length]; try discriminate; intros Hf Hs Hr.
  - destruct f, s, r; try discriminate. cbn. eexists. split; reflexivity.
  - injection Hf as Hf. injection Hs as Hs. injection Hr as Hr.
    destruct (IH f s r Hf Hs Hr) as (y & Hy & Hc).
    exists y. split; [| exact Hc].
    cbn [zip_columns iloc_last].
    destruct (zip_columns (pre ++ [x]) f s r) as [| z zs]; [discriminate |].
    exact Hy.
Qed.

(** X20. The last row exists exactly when the klines hold a close, and its
    close is the newest one: it is the price given to the sizer and, after
    a filled buy, the entry price.  With no close at all the lookup of the
    row raises IndexError. *)
Theorem snapshot_reads_newest_close :
  forall (w : world) (closes : list float),
    klines w = inr closes ->
    (closes = [] -> snapshot w = inl IndexError)
    /\ (forall older newest, closes = older ++ [newest] ->
          exists r, snapshot w = inr r /\ close r = newest).
Proof.
  intros w closes Hk. unfold snapshot, Ebind. rewrite Hk. split.
  - intros ->. reflexivity.
  - intros older newest ->.
    apply zip_columns_last.
    + apply ewm_mean_length.
    + apply ewm_mean_length.
    + apply calculate_rsi_length.
Qed.

Lemma snapshot_reads_newest_close_witness :
  exists r, snapshot w_rising = inr r /\ close r = 15.
Proof.
  apply (proj2 (snapshot_reads_newest_close w_rising rising15 eq_refl)
           [1; 2; 3; 4; 5; 6; 7; 8; 9; 10; 11; 12; 13; 14] 15).
  reflexivity.
Defined.
